(** * finance-visualizer: the configuration-driven chart pipeline

    A shallow embedding of [src/visualizer/core.py] (class [Visualizer]) and
    of [src/main.py].

    The Python code talks to three libraries: [json]/[pathlib]/[glob] for the
    inputs, pandas for the tables and matplotlib for the figures.  The inputs
    are gathered in an environment record [Env]; the pandas operations the code
    uses are written out on a columnar [DataFrame]; a matplotlib figure is a
    record of what has been drawn on it.  The methods of [Visualizer] run in a
    state-and-exception monad [M] over [State]: the object's [config_data], the
    number of open figures, the files written and the log.

    What the model covers.
    - Numbers.  A cell is an exact rational or one of the IEEE specials
      [+inf], [-inf], [nan] (pandas' missing-value marker), and sums are
      exact.  pandas adds an int64 column with wrap-around and a float64
      column with rounding and overflow to [inf]; the two agree with the
      exact sum on cells that are [exactly_summable] (whole multiples of one
      binary unit that stay below [2^53] units), and what is stated about
      the value of a sum is stated for such cells.
    - Tables.  Every column is numeric; text columns are outside the model.
    - Descriptors.  A descriptor is a JSON object whose fields have the
      types the code expects (a string, or a string or list of strings).
      [load_config] does not check this, and what the code does with a list
      element that is no object, or with a field of another type, is
      outside the model. *)

From Stdlib Require Import QArith Qabs ZArith String Ascii DecimalString List Sorted Lia Lqa.
From stdpp Require Import base tactics option list gmap strings.

Open Scope string_scope.

(** ** Python exceptions and results *)

Inductive exn :=
| FileNotFoundError
| JSONDecodeError
| ValueError (msg : string)
| OverflowError
| KeyError (key : string)
| OSError
| ParserError.

Inductive Outcome (A : Type) :=
| Ok (a : A)
| Raise (e : exn).
Arguments Ok {A} a.
Arguments Raise {A} e.

(** ** Numbers *)

Module Num.

Inductive num :=
| Fin (q : Q)
| PInf
| NInf
| NaN.

Definition isnan (x : num) : bool :=
  match x with NaN => true | _ => false end.

(** Addition of two cells: IEEE on the specials, exact on the numbers.
    Machine addition (int64 with wrap-around, float64 with rounding and
    overflow) gives the same number wherever the exact sum is an int64 or
    a float64, as it is on [exactly_summable] cells; elsewhere it differs,
    and nothing is stated about it there. *)
Definition add (x y : num) : num :=
  match x, y with
  | NaN, _ | _, NaN => NaN
  | PInf, NInf | NInf, PInf => NaN
  | PInf, _ | _, PInf => PInf
  | NInf, _ | _, NInf => NInf
  | Fin a, Fin b => Fin (a + b)
  end.

(** [x == y]; [nan] is equal to nothing. *)
Definition eqb (x y : num) : bool :=
  match x, y with
  | Fin a, Fin b => Qeq_bool a b
  | PInf, PInf | NInf, NInf => true
  | _, _ => false
  end.

(** [x < y]; every comparison with [nan] is false. *)
Definition ltb (x y : num) : bool :=
  match x, y with
  | NaN, _ | _, NaN => false
  | NInf, NInf => false
  | NInf, _ => true
  | _, NInf => false
  | PInf, _ => false
  | Fin _, PInf => true
  | Fin a, Fin b => negb (Qle_bool b a)
  end.

(** One step of a NaN-skipping sum ([skipna=True]). *)
Definition nan_add (acc x : num) : num :=
  if isnan x then acc else add acc x.

(** [Series.sum()] with pandas' defaults: missing values are skipped and
    the empty sum is 0. *)
Definition nansum (l : list num) : num :=
  fold_left nan_add l (Fin 0).

(** Python's [int(y)] on a float: truncation toward zero; the specials
    raise. *)
Definition int_of_num (y : num) : Outcome Z :=
  match y with
  | Fin q => Ok (Z.quot (Qnum q) (Zpos (Qden q)))
  | PInf | NInf => Raise OverflowError
  | NaN => Raise (ValueError "cannot convert float NaN to integer")
  end.

(** [str(n)] for a Python [int]. *)
Definition str (n : Z) : string := NilZero.string_of_int (Z.to_int n).

End Num.
Export Num.

(** ** pandas: the DataFrame operations the pipeline uses *)

(** A frame is its columns in order, each a name and its cells; the cells
    are numbers or missing (a text column has no value here). *)
Definition DataFrame := list (string * list num).

Definition frame_columns (df : DataFrame) : list string := map fst df.

(** [c in df.columns] *)
Definition has_column (c : string) (df : DataFrame) : bool :=
  bool_decide (c ∈ frame_columns df).

(** [df[c]]; [None] stands for pandas' [KeyError]. *)
Fixpoint getitem (df : DataFrame) (c : string) : option (list num) :=
  match df with
  | [] => None
  | (c', col) :: rest => if String.eqb c c' then Some col else getitem rest c
  end.

(** [df[c] = col]: an existing column is replaced in place, a new one is
    appended. *)
Fixpoint setitem (df : DataFrame) (c : string) (col : list num) : DataFrame :=
  match df with
  | [] => [(c, col)]
  | (c', col') :: rest =>
      if String.eqb c c' then (c, col) :: rest else (c', col') :: setitem rest c col
  end.

Definition nrows (df : DataFrame) : nat :=
  match df with
  | [] => 0
  | (_, col) :: _ => length col
  end.

(** [df[cols]]: the named columns, in the order asked for; a name that
    is no column raises. *)
Fixpoint select (df : DataFrame) (cols : list string) : Outcome (list (list num)) :=
  match cols with
  | [] => Ok []
  | c :: rest =>
      match getitem df c with
      | None => Raise (KeyError c)
      | Some col =>
          match select df rest with
          | Ok cs => Ok (col :: cs)
          | Raise e => Raise e
          end
      end
  end.

(** [frame.sum(axis=1)] on a frame of [n] rows: one NaN-skipping sum per
    row, across the columns. *)
Definition sum_axis1 (n : nat) (cols : list (list num)) : list num :=
  map (fun i => nansum (map (fun col => nth i col NaN) cols)) (seq 0 n).

(** Grouped sums are accumulated row by row into a list kept sorted by key:
    a row whose key is already there adds to that key's sum, a new key is
    put at its place in the order. *)
Fixpoint upsert (k v : num) (acc : list (num * num)) : list (num * num) :=
  match acc with
  | [] => [(k, nan_add (Fin 0) v)]
  | (k', s) :: rest =>
      if Num.ltb k k' then (k, nan_add (Fin 0) v) :: acc
      else if Num.eqb k k' then (k', nan_add s v) :: rest
      else (k', s) :: upsert k v rest
  end.

(** Rows whose key is missing belong to no group ([dropna=True]). *)
Definition group_step (acc : list (num * num)) (row : num * num) : list (num * num) :=
  if isnan (fst row) then acc else upsert (fst row) (snd row) acc.

Definition group_sums (keys vals : list num) : list (num * num) :=
  fold_left group_step (combine keys vals) [].

(** [df.groupby(g, as_index=False)[m].sum()].  The result has the sums
    under [m]; the keys are put in front under [g] unless a column of that
    name is already there. *)
Definition groupby_sum (df : DataFrame) (g m : string) : Outcome DataFrame :=
  match getitem df g with
  | None => Raise (KeyError g)
  | Some keys =>
      match getitem df m with
      | None => Raise (KeyError m)
      | Some vals =>
          let series := group_sums keys vals in
          let result := [(m, map snd series)] in
          Ok (if has_column g result then result else (g, map fst series) :: result)
      end
  end.

(** ** pathlib, glob, json, matplotlib: the environment *)

(** A [pathlib.Path] as its parts: ["data"; "sales.csv"] is [data/sales.csv]
    and the empty list is the current directory. *)
Definition Path := list string.

(** [path.parent] *)
Definition parent (p : Path) : Path := removelast p.

(** [path.name] *)
Definition name (p : Path) : string := List.last p "".

(** [dir / filename] *)
Definition truediv (dir : Path) (filename : string) : Path := (dir ++ [filename])%list.

(** [s.rfind(".")] as the length of what comes before the last dot. *)
Fixpoint rfind_dot (s : string) : option nat :=
  match s with
  | EmptyString => None
  | String c rest =>
      match rfind_dot rest with
      | Some i => Some (S i)
      | None => if Ascii.eqb c "."%char then Some 0 else None
      end
  end.

(** [path.stem]: the name up to its last dot, unless that dot opens or
    closes the name. *)
Definition stem (p : Path) : string :=
  let name := name p in
  match rfind_dot name with
  | Some i =>
      if (0 <? i)%nat && (i <? String.length name - 1)%nat
      then substring 0 i name
      else name
  | None => name
  end.

(** The value of [columns] and of [groupby]: one name or a list of names. *)
Inductive names :=
| Single (n : string)
| Multiple (ns : list string).

(** A job descriptor, as the JSON object it is loaded from.  A field is
    [None] when its key is absent.  The fields carry the names of the class
    constants, so that [KEY_COLUMNS config] reads as
    [config.get(self.KEY_COLUMNS)]. *)
Record Config := {
  KEY_DIRECTORY : option string;
  KEY_COLUMNS : option names;
  KEY_GROUPBY : option names;
  KEY_CHART_TYPE : option string;
  KEY_CHART_LABEL : option string
}.

(** What [json.load] can return at the root of a configuration file: a
    list of descriptors, one descriptor, or anything else.  The elements
    of a list are taken to be objects with fields of the types of [Config];
    a list with other elements, which [load_config] accepts unseen, has no
    value here. *)
Inductive json :=
| JList (l : list Config)
| JDict (d : Config)
| JScalar.

(** A configuration source: no such file; a path that exists but cannot
    be opened or read as text (a directory, a file without read permission,
    bytes that are not UTF-8), with the exception that [path.open] or the
    reading raises; a file whose text is not JSON; or a file holding a JSON
    value. *)
Inductive source :=
| NoFile
| Unreadable (e : exn)
| NotJson
| Json (j : json).

Record Env := {
  (** the file at a configuration path *)
  config_file : string -> source;
  (** [glob.glob(pattern, recursive=True)], each result as a [Path] *)
  glob_glob : string -> list Path;
  (** [path.is_dir()] *)
  is_dir : Path -> bool;
  (** [pd.read_csv(path)] *)
  read_csv : Path -> Outcome DataFrame;
  (** the exception [fig.savefig(path)] ends in, if it does *)
  savefig_error : Path -> option exn
}.

(** What has been drawn on a figure: the artist ([kind] is "line" or "bar")
    with its points and label, the text annotations in the order they were
    added, and the decorations. *)
Record Figure := {
  kind : string;
  points : list (num * num);
  label : string;
  texts : list (num * num * string);
  title : string;
  xlabel : string;
  ylabel : string;
  grid : bool;
  legend : bool;
  integer_ticks : bool
}.

Definition blank : Figure :=
  {| kind := ""; points := []; label := ""; texts := []; title := "";
     xlabel := ""; ylabel := ""; grid := false; legend := false;
     integer_ticks := false |}.

(** [ax.plot(x_data, y_data, ..., label=label)] and
    [ax.bar(x_data, y_data, ..., label=label)] *)
Definition ax_draw (kind : string) (fig : Figure) (x_data y_data : list num)
    (label : string) : Figure :=
  {| kind := kind; points := combine x_data y_data; label := label;
     texts := texts fig; title := title fig; xlabel := xlabel fig;
     ylabel := ylabel fig; grid := grid fig; legend := legend fig;
     integer_ticks := integer_ticks fig |}.

(** [ax.text(x, y, s, ...)] *)
Definition ax_text (fig : Figure) (x y : num) (s : string) : Figure :=
  {| kind := kind fig; points := points fig; label := label fig;
     texts := (texts fig ++ [(x, y, s)])%list; title := title fig;
     xlabel := xlabel fig; ylabel := ylabel fig; grid := grid fig;
     legend := legend fig; integer_ticks := integer_ticks fig |}.

(** The "Formatting" block of [_generate_chart]: title, axis labels, grid,
    legend and integer ticks. *)
Definition formatting (fig : Figure) (base_filename x_col y_label : string) : Figure :=
  {| kind := kind fig; points := points fig; label := label fig;
     texts := texts fig;
     title := base_filename ++ " grouped by " ++ x_col;
     xlabel := x_col; ylabel := y_label; grid := true; legend := true;
     integer_ticks := true |}.

(** ** Logging *)

Inductive Level := INFO | WARNING | ERROR.

(** The log lines of [core.py], each with the values its f-string prints. *)
Inductive Message :=
| Loaded (n : nat) (config_path : string)
| No_configuration_data_loaded
| Processing_Config_Set (i : nat)
| Config_entry_missing_directory
| Found_files (n : nat) (search_pattern : string)
| Failed_to_process (file_path : Path) (e : exn)
| Processing (file_name : string)
| Failed_to_read_CSV (file_path : Path) (e : exn)
| Missing_required_config_keys (file_name : string)
| None_of_the_columns_found (file_name : string) (target_cols : list string)
| Column_not_found (file_name : string) (target_col : string)
| Group_column_not_found (group_col : string) (file_name : string)
| Unknown_chart_type (chart_type : string)
| Generated_chart (output_path : Path)
| Failed_to_save_chart (output_path : Path) (e : exn).

(** ** State and the monad of the methods *)

Record State := {
  config_data : list Config;
  open_figures : nat;
  files : gmap Path Figure;
  log : list (Level * Message)
}.

Definition M (A : Type) : Type := State -> Outcome A * State.

Definition ret {A} (a : A) : M A := fun s => (Ok a, s).

Definition raise {A} (e : exn) : M A := fun s => (Raise e, s).

Definition bind {A B} (m : M A) (k : A -> M B) : M B :=
  fun s =>
    match m s with
    | (Ok a, s') => k a s'
    | (Raise e, s') => (Raise e, s')
    end.

Notation "x <- m ;; k" := (bind m (fun x => k))
  (at level 100, m at next level, right associativity, only parsing).
Notation "m ;;; k" := (bind m (fun _ => k))
  (at level 100, right associativity, only parsing).

(** Exception classes, as the predicate of what an [except] clause catches. *)
Definition Exception (e : exn) : bool := true.

Definition is_JSONDecodeError (e : exn) : bool :=
  match e with JSONDecodeError => true | _ => false end.

(** [try: body except cls as e: handler(e)] *)
Definition try_except {A} (body : M A) (cls : exn -> bool) (handler : exn -> M A) : M A :=
  fun s =>
    match body s with
    | (Ok a, s') => (Ok a, s')
    | (Raise e, s') => if cls e then handler e s' else (Raise e, s')
    end.

(** [try: body finally: cleanup] *)
Definition try_finally {A} (body : M A) (cleanup : M unit) : M A :=
  fun s =>
    match body s with
    | (r, s') =>
        match cleanup s' with
        | (Ok _, s'') => (r, s'')
        | (Raise e, s'') => (Raise e, s'')
        end
    end.

(** Lifts a computation that has no effect but may raise. *)
Definition lift {A} (o : Outcome A) : M A := fun s => (o, s).

(** [df[c]] where the exception matters. *)
Definition getitem_or_raise (df : DataFrame) (c : string) : M (list num) :=
  match getitem df c with
  | Some col => ret col
  | None => raise (KeyError c)
  end.

(** The four ways the methods change the state. *)
Definition log_append (s : State) (records : list (Level * Message)) : State :=
  {| config_data := config_data s; open_figures := open_figures s;
     files := files s; log := (log s ++ records)%list |}.

Definition with_config_data (s : State) (config : list Config) : State :=
  {| config_data := config; open_figures := open_figures s;
     files := files s; log := log s |}.

Definition with_open_figures (s : State) (n : nat) : State :=
  {| config_data := config_data s; open_figures := n;
     files := files s; log := log s |}.

Definition with_file (s : State) (path : Path) (fig : Figure) : State :=
  {| config_data := config_data s; open_figures := open_figures s;
     files := <[path := fig]> (files s); log := log s |}.

Definition logger (lvl : Level) (msg : Message) : M unit :=
  fun s => (Ok tt, log_append s [(lvl, msg)]).

Definition set_config_data (config : list Config) : M unit :=
  fun s => (Ok tt, with_config_data s config).

Definition get_config_data : M (list Config) :=
  fun s => (Ok (config_data s), s).

(** [plt.subplots()]: one more open figure, nothing drawn on it yet. *)
Definition plt_subplots : M Figure :=
  fun s => (Ok blank, with_open_figures s (S (open_figures s))).

(** [plt.close(fig)] *)
Definition plt_close : M unit :=
  fun s => (Ok tt, with_open_figures s (pred (open_figures s))).

(** [fig.savefig(output_path)]: the file is written, over what was there,
    or the call raises. *)
Definition savefig (E : Env) (fig : Figure) (output_path : Path) : M unit :=
  fun s =>
    match savefig_error E output_path with
    | Some e => (Raise e, s)
    | None => (Ok tt, with_file s output_path fig)
    end.

(** ** class Visualizer *)

(** [for x in l: body(x)] *)
Fixpoint for_each {A} (l : list A) (body : A -> M unit) : M unit :=
  match l with
  | [] => ret tt
  | x :: rest => body x ;;; for_each rest body
  end.

(** The "Add data labels" loops: the text at a point is [f'{int(y)}'].  In
    the bar chart the point is the top centre of the bar, which is [(x, y)]
    again. *)
Fixpoint add_data_labels (fig : Figure) (pts : list (num * num)) : Outcome Figure :=
  match pts with
  | [] => Ok fig
  | (x, y) :: rest =>
      match int_of_num y with
      | Ok n => add_data_labels (ax_text fig x y (str n)) rest
      | Raise e => Raise e
      end
  end.

Definition _generate_chart (E : Env) (df : DataFrame) (x_col y_col chart_type : string)
    (output_dir : Path) (base_filename y_label : string) : M unit :=
  fig <- plt_subplots ;;
  x_data <- getitem_or_raise df x_col ;;
  y_data <- getitem_or_raise df y_col ;;
  drawn <-
    (if String.eqb chart_type "line" then
       fig <- lift (add_data_labels (ax_draw "line" fig x_data y_data y_label)
                      (combine x_data y_data)) ;;
       ret (Some fig)
     else if String.eqb chart_type "bar" then
       fig <- lift (add_data_labels (ax_draw "bar" fig x_data y_data y_label)
                      (combine x_data y_data)) ;;
       ret (Some fig)
     else
       logger ERROR (Unknown_chart_type chart_type) ;;;
       plt_close ;;;
       ret None) ;;
  match drawn with
  | None => ret tt
  | Some fig =>
      let fig := formatting fig base_filename x_col y_label in
      let output_filename := base_filename ++ "_" ++ x_col ++ "_" ++ chart_type ++ ".png" in
      let output_path := truediv output_dir output_filename in
      try_finally
        (try_except
           (savefig E fig output_path ;;;
            logger INFO (Generated_chart output_path))
           Exception
           (fun e => logger ERROR (Failed_to_save_chart output_path e)))
        plt_close
  end.

Definition plot_col_name : string := "calculated_value".

(** Python truthiness of the values a descriptor holds. *)
Definition truthy (s : string) : bool := negb (String.eqb s "").

Definition truthy_names (v : names) : bool :=
  match v with
  | Single n => truthy n
  | Multiple ns => negb (bool_decide (ns = []))
  end.

(** [config.get(key, default)] *)
Definition get_default {A} (v : option A) (default : A) : A :=
  match v with
  | Some a => a
  | None => default
  end.

(** Lines 119-138 of [_process_single_file], "1. Prepare Data (Handle
    Columns)".  The result is the frame as it stands afterwards, and the
    y label when the function goes on ([None] when it returns here). *)
Definition handle_columns (file_name : string) (config : Config) (target_cols : names)
    (df : DataFrame) : M (DataFrame * option string) :=
  match target_cols with
  | Multiple target_cols =>
      let available_cols := List.filter (fun c => has_column c df) target_cols in
      if bool_decide (available_cols = []) then
        logger WARNING (None_of_the_columns_found file_name target_cols) ;;;
        ret (df, None)
      else
        cols <- lift (select df available_cols) ;;
        let df := setitem df plot_col_name (sum_axis1 (nrows df) cols) in
        ret (df, Some (get_default (KEY_CHART_LABEL config)
                         (String.concat " + " available_cols)))
  | Single target_cols =>
      if negb (has_column target_cols df) then
        logger WARNING (Column_not_found file_name target_cols) ;;;
        ret (df, None)
      else
        col <- getitem_or_raise df target_cols ;;
        let df := setitem df plot_col_name col in
        ret (df, Some (get_default (KEY_CHART_LABEL config) target_cols))
  end.

(** [if isinstance(groupby_input, str): groupby_input = [groupby_input]] *)
Definition as_list (groupby_input : names) : list string :=
  match groupby_input with
  | Single group_col => [group_col]
  | Multiple group_cols => group_cols
  end.

(** Lines 140-161 of [_process_single_file], "2. Prepare Data (Handle
    GroupBy)" and "3. Generate Plot": one aggregation and one chart per
    group column. *)
Definition handle_groupby (E : Env) (file_path : Path) (df : DataFrame)
    (groupby_input : names) (chart_type y_label : string) : M unit :=
  for_each (as_list groupby_input) (fun group_col =>
    if negb (has_column group_col df) then
      logger WARNING (Group_column_not_found group_col (name file_path))
    else
      grouped_df <- lift (groupby_sum df group_col plot_col_name) ;;
      _generate_chart E grouped_df group_col plot_col_name chart_type
        (parent file_path) (stem file_path) y_label).

Definition _process_single_file (E : Env) (file_path : Path) (config : Config) : M unit :=
  logger INFO (Processing (name file_path)) ;;;
  read <- try_except
            (df <- lift (read_csv E file_path) ;; ret (Some df))
            Exception
            (fun e => logger ERROR (Failed_to_read_CSV file_path e) ;;; ret None) ;;
  match read with
  | None => ret tt
  | Some df =>
      match KEY_COLUMNS config, KEY_GROUPBY config, KEY_CHART_TYPE config with
      | Some target_cols, Some groupby_input, Some chart_type =>
          if negb (truthy_names target_cols) || negb (truthy_names groupby_input)
             || negb (truthy chart_type)
          then logger WARNING (Missing_required_config_keys (name file_path))
          else
            prepared <- handle_columns (name file_path) config target_cols df ;;
            match prepared with
            | (_, None) => ret tt
            | (df, Some y_label) =>
                handle_groupby E file_path df groupby_input chart_type y_label
            end
      | _, _, _ => logger WARNING (Missing_required_config_keys (name file_path))
      end
  end.

(** Lines 91-97: the body of the loop over the files of a pattern. *)
Definition file_loop_body (E : Env) (config : Config) (file_path : Path) : M unit :=
  if is_dir E file_path then ret tt
  else
    try_except (_process_single_file E file_path config)
      Exception
      (fun e => logger ERROR (Failed_to_process file_path e)).

Definition _process_config_entry (E : Env) (config : Config) : M unit :=
  match KEY_DIRECTORY config with
  | Some search_pattern =>
      if negb (truthy search_pattern) then logger WARNING Config_entry_missing_directory
      else
        let files := glob_glob E search_pattern in
        logger INFO (Found_files (length files) search_pattern) ;;;
        for_each files (file_loop_body E config)
  | None => logger WARNING Config_entry_missing_directory
  end.

(** [enumerate(l)] *)
Definition enumerate {A} (l : list A) : list (nat * A) :=
  combine (seq 0 (length l)) l.

Definition process_all (E : Env) : M unit :=
  config_data <- get_config_data ;;
  if bool_decide (config_data = []) then logger WARNING No_configuration_data_loaded
  else
    for_each (enumerate config_data) (fun '(i, config) =>
      logger INFO (Processing_Config_Set (i + 1)) ;;;
      _process_config_entry E config).

(** [path.open(...)] and [json.load(file)] on the configuration file *)
Definition json_load (E : Env) (config_path : string) : M json :=
  match config_file E config_path with
  | Json j => ret j
  | NotJson => raise JSONDecodeError
  | Unreadable e => raise e
  | NoFile => raise FileNotFoundError
  end.

(** The messages of the exceptions are the source's without their leading
    pictogram. *)
Definition load_config (E : Env) (config_path : string) : M unit :=
  match config_file E config_path with
  | NoFile => raise FileNotFoundError
  | _ =>
      try_except
        (config <- json_load E config_path ;;
         config <- match config with
                   | JList l => ret l
                   | JDict d => ret [d]
                   | JScalar =>
                       raise (ValueError "Config file must contain a list of configurations.")
                   end ;;
         if bool_decide (config = []) then
           raise (ValueError ("Warning: No config data found in " ++ config_path ++ "."))
         else
           set_config_data config ;;;
           logger INFO (Loaded (length config) config_path))
        is_JSONDecodeError
        (fun _ =>
           raise (ValueError ("Error: Failed to decode JSON from " ++ config_path ++ ".")))
  end.

(** [Visualizer()] in a process that has drawn and written nothing yet. *)
Definition __init__ : State :=
  {| config_data := []; open_figures := 0; files := ∅; log := [] |}.

(** ** main.py *)

(** How the process ends: its exit status and the exception [main] printed
    after "Critical Error:", if it printed one. *)
Record Exit := {
  status : nat;
  printed : option exn
}.

(** [main()], given the value of [--config] on the command line if there is
    one.  Without the option [parse_args] ends the process with status 2
    before a [Visualizer] exists; otherwise a new [Visualizer] (with an
    empty [config_data]) loads the configuration and processes it, and any
    exception is printed and turned into status 1. *)
Definition main (E : Env) (config : option string) : M Exit :=
  match config with
  | None => ret {| status := 2; printed := None |}
  | Some config =>
      set_config_data [] ;;;
      try_except
        (load_config E config ;;;
         process_all E ;;;
         ret {| status := 0; printed := None |})
        Exception
        (fun e => ret {| status := 1; printed := Some e |})
  end.

(** * Vocabulary of the properties *)

(** The configuration sources on which [load_config] raises. *)
Definition bad_source (src : source) : bool :=
  match src with
  | NoFile | Unreadable _ | NotJson | Json JScalar | Json (JList []) => true
  | Json (JList (_ :: _)) | Json (JDict _) => false
  end.

(** ** Example inputs *)

Module Ex.

(** The descriptor and the table of [test_process_end_to_end]. *)
Definition income_by_year : Config :=
  {| KEY_DIRECTORY := Some "data/*.csv";
     KEY_COLUMNS := Some (Single "Amount");
     KEY_GROUPBY := Some (Single "Year");
     KEY_CHART_TYPE := Some "bar";
     KEY_CHART_LABEL := Some "Total Amount" |}.

(** The same descriptor with an empty chart label. *)
Definition unlabelled : Config :=
  {| KEY_DIRECTORY := Some "data/*.csv";
     KEY_COLUMNS := Some (Single "Amount");
     KEY_GROUPBY := Some (Single "Year");
     KEY_CHART_TYPE := Some "bar";
     KEY_CHART_LABEL := Some "" |}.

Definition financials_csv : Path := ["data"; "test_financials.csv"].

Definition financials : DataFrame :=
  [("Year", [Fin 2023; Fin 2023; Fin 2024; Fin 2024]);
   ("Amount", [Fin 100; Fin 200; Fin 150; Fin 250])].

(** A file system with one good configuration file, one that is not
    JSON and one holding the empty list. *)
Definition disk : Env :=
  {| config_file := fun config_path =>
       if String.eqb config_path "test_config.json" then Json (JList [income_by_year])
       else if String.eqb config_path "invalid.json" then NotJson
       else if String.eqb config_path "empty.json" then Json (JList [])
       else NoFile;
     glob_glob := fun pattern =>
       if String.eqb pattern "data/*.csv" then [financials_csv] else [];
     is_dir := fun _ => false;
     read_csv := fun file_path =>
       if bool_decide (file_path = financials_csv) then Ok financials
       else Raise ParserError;
     savefig_error := fun _ => None |}.

(** A ledger with an infinite amount in a row whose month is missing,
    next to a clean file.  Grouped by year the sum is infinite; grouped
    by month the row belongs to no group. *)
Definition ledger_csv : Path := ["data"; "ledger.csv"].
Definition clean_csv : Path := ["data"; "clean.csv"].

Definition ledger : DataFrame :=
  [("Year", [Fin 2023; Fin 2023]);
   ("Month", [Fin 1; NaN]);
   ("Amount", [Fin 100; PInf])].

Definition clean : DataFrame :=
  [("Year", [Fin 2024]); ("Month", [Fin 2]); ("Amount", [Fin 75])].

(** Amounts with cents: the year 2023 sums to 2.75. *)
Definition fractions_csv : Path := ["data"; "fractions.csv"].

Definition fractions : DataFrame :=
  [("Year", [Fin 2023; Fin 2023]); ("Amount", [Fin (3 # 2); Fin (5 # 4)])].

Definition fractions_disk : Env :=
  {| config_file := fun _ => NoFile;
     glob_glob := fun pattern =>
       if String.eqb pattern "data/*.csv" then [fractions_csv] else [];
     is_dir := fun _ => false;
     read_csv := fun file_path =>
       if bool_decide (file_path = fractions_csv) then Ok fractions
       else Raise ParserError;
     savefig_error := fun _ => None |}.

(** The table of [test_process_multiple_columns_sum]. *)
Definition multi_col : DataFrame :=
  [("Year", [Fin 2023; Fin 2024]);
   ("Salary", [Fin 50000; Fin 52000]);
   ("Bonus", [Fin 5000; Fin 6000])].

Definition salary_and_bonus : Config :=
  {| KEY_DIRECTORY := Some "data_multi/*.csv";
     KEY_COLUMNS := Some (Multiple ["Salary"; "Bonus"]);
     KEY_GROUPBY := Some (Single "Year");
     KEY_CHART_TYPE := Some "line";
     KEY_CHART_LABEL := None |}.

Definition by_year_and_month (groupby : list string) : Config :=
  {| KEY_DIRECTORY := Some "data/*.csv";
     KEY_COLUMNS := Some (Single "Amount");
     KEY_GROUPBY := Some (Multiple groupby);
     KEY_CHART_TYPE := Some "line";
     KEY_CHART_LABEL := None |}.

Definition ledgers : Env :=
  {| config_file := fun _ => NoFile;
     glob_glob := fun pattern =>
       if String.eqb pattern "data/*.csv" then [ledger_csv; clean_csv] else [];
     is_dir := fun _ => false;
     read_csv := fun file_path =>
       if bool_decide (file_path = ledger_csv) then Ok ledger
       else if bool_decide (file_path = clean_csv) then Ok clean
       else Raise ParserError;
     savefig_error := fun _ => None |}.







(** The file system of [ledgers] when no chart can be written. *)
Definition read_only : Env :=
  {| config_file := fun _ => NoFile;
     glob_glob := glob_glob ledgers;
     is_dir := fun _ => false;
     read_csv := read_csv ledgers;
     savefig_error := fun _ => Some OSError |}.

(** A file system whose [config.json] is a directory: the path exists
    and [path.open] raises. *)
Definition locked : Env :=
  {| config_file := fun config_path =>
       if String.eqb config_path "config.json" then Unreadable OSError else NoFile;
     glob_glob := fun _ => [];
     is_dir := fun _ => false;
     read_csv := fun _ => Raise ParserError;
     savefig_error := fun _ => None |}.

End Ex.


(** The chart kinds [_generate_chart] draws. *)
Definition supported (chart_type : string) : bool :=
  String.eqb chart_type "line" || String.eqb chart_type "bar".


(** Whether the table has a column the descriptor's measure names. *)
Definition measure_present (config : Config) (df : DataFrame) : bool :=
  match KEY_COLUMNS config with
  | Some (Single target_col) => has_column target_col df
  | Some (Multiple target_cols) => existsb (fun c => has_column c df) target_cols
  | None => false
  end.


(** The cells of row [i] under the names of [target_cols], in the order of
    the names: a name that is no column of the table gives no cell, a name
    listed twice gives its cell twice. *)
Definition row_cells (df : DataFrame) (i : nat) (target_cols : list string) : list num :=
  omap (fun c => match getitem df c with
                 | Some col => Some (nth i col NaN)
                 | None => None
                 end) target_cols.


(** A computation preserves a relation between the state it starts in
    and the state it leaves, whatever its result. *)
Definition preserves {A} (R : State -> State -> Prop) (m : M A) : Prop :=
  forall s, R s (m s).2.

(** Every file found after the step was there before, or is one that
    [P] describes. *)
Definition writes_only (P : Path -> Figure -> Prop) (s s' : State) : Prop :=
  forall path fig,
    files s' !! path = Some fig -> files s !! path = Some fig \/ P path fig.

(** The figure a render call saves, and where: the artist and its data
    labels, then the formatting, at the path made of the output directory,
    the base file name, the group column and the chart kind. *)
Definition rendered (df : DataFrame) (x_col y_col chart_type : string)
    (output_dir : Path) (base_filename y_label : string)
    (path : Path) (fig : Figure) : Prop :=
  path = truediv output_dir (base_filename ++ "_" ++ x_col ++ "_" ++ chart_type ++ ".png") /\
  supported chart_type = true /\
  exists xs ys drawn,
    getitem df x_col = Some xs /\
    getitem df y_col = Some ys /\
    add_data_labels (ax_draw chart_type blank xs ys y_label) (combine xs ys) = Ok drawn /\
    fig = formatting drawn base_filename x_col y_label.

(** The figures the group loop of a file saves. *)
Definition rendered_group (file_path : Path) (df : DataFrame) (groupby_input : names)
    (chart_type y_label : string) (path : Path) (fig : Figure) : Prop :=
  exists group_col grouped_df,
    group_col ∈ as_list groupby_input /\
    groupby_sum df group_col plot_col_name = Ok grouped_df /\
    rendered grouped_df group_col plot_col_name chart_type
      (parent file_path) (stem file_path) y_label path fig.

(** The figures [_process_single_file] saves for a file and a descriptor. *)
Definition rendered_file (E : Env) (file_path : Path) (config : Config)
    (path : Path) (fig : Figure) : Prop :=
  exists df target_cols groupby_input chart_type s0 df' y_label s1,
    read_csv E file_path = Ok df /\
    KEY_COLUMNS config = Some target_cols /\
    KEY_GROUPBY config = Some groupby_input /\
    KEY_CHART_TYPE config = Some chart_type /\
    handle_columns (name file_path) config target_cols df s0
    = (Ok (df', Some y_label), s1) /\
    rendered_group file_path df' groupby_input chart_type y_label path fig.


(** [n] is [q] with its fractional part dropped: the integer next to [q]
    on the side of zero. *)
Definition toward_zero (q : Q) (n : Z) : Prop :=
  (0 <= q -> inject_Z n <= q /\ q < inject_Z n + 1)%Q /\
  (q <= 0 -> inject_Z n - 1 < q /\ q <= inject_Z n)%Q.

(** [n] is an integer nearest to [q]. *)
Definition nearest (q : Q) (n : Z) : Prop :=
  (Qabs (q - inject_Z n) <= 1 # 2)%Q.


(** A computation that never looks at the state it runs in: its result is
    always the same, it writes the same files over whatever is there, and
    it keeps [config_data]. *)
Definition stateless {A} (m : M A) : Prop :=
  exists (r : Outcome A) (written : gmap Path Figure),
    forall s,
      (m s).1 = r /\
      files (m s).2 = written ∪ files s /\
      config_data (m s).2 = config_data s.






(** A cell that is a number or missing, not an infinity. *)
Definition no_inf (x : num) : bool :=
  match x with
  | PInf | NInf => false
  | Fin _ | NaN => true
  end.

Definition is_fin (x : num) : bool :=
  match x with
  | Fin _ => true
  | _ => false
  end.

(** A table without infinite cells. *)
Definition clean (df : DataFrame) : Prop :=
  Forall (fun column => Forall (fun x => no_inf x = true) column.2) df.

(** A descriptor with its three processing keys set to something truthy. *)
Definition complete (config : Config) : bool :=
  match KEY_COLUMNS config, KEY_GROUPBY config, KEY_CHART_TYPE config with
  | Some target_cols, Some groupby_input, Some chart_type =>
      truthy_names target_cols && truthy_names groupby_input && truthy chart_type
  | _, _, _ => false
  end.

(** A computation that returns normally and leaves as many figures open
    as it found. *)
Definition quiet (m : M unit) : Prop :=
  forall s, (m s).1 = Ok tt /\ open_figures (m s).2 = open_figures s.

(** ** Sums that machine arithmetic gets right *)

(** What a cell adds to a sum of numbers and missing values: a missing
    cell adds nothing. *)
Definition value (x : num) : Q :=
  match x with
  | Fin q => q
  | _ => 0%Q
  end.

(** The sum of a list of rationals. *)
Definition Qsum (l : list Q) : Q := fold_right Qplus 0%Q l.

(** A cell counted in units of [2^-k]: [Some u] when the cell is the
    number [u / 2^k], a missing cell counting for 0; [None] for an infinity
    and for a number that is no whole multiple of the unit. *)
Definition units (k : nat) (x : num) : option Z :=
  match x with
  | Fin q =>
      let n := (Qnum q * 2 ^ Z.of_nat k)%Z in
      if (n mod Z.pos (Qden q) =? 0)%Z then Some (n / Z.pos (Qden q))%Z else None
  | NaN => Some 0%Z
  | PInf | NInf => None
  end.

(** Cells that pandas adds up without wrap-around, rounding or overflow,
    in whatever order it takes them: they are whole multiples of one unit
    [2^-k] and their absolute values add up to less than [2^53] units, so
    that every partial sum is exact in int64 and in float64 arithmetic.
    Whole numbers are the case [k = 0]. *)
Definition exactly_summable (l : list num) : Prop :=
  exists (k : nat) (us : list Z),
    (k <= 1000)%nat /\
    mapM (units k) l = Some us /\
    (fold_right Z.add 0 (map Z.abs us) < 2 ^ 53)%Z.

(** A table all of whose cells, taken together, are [exactly_summable]:
    no sum of cells of the table, along a row or down a column, leaves the
    range in which machine addition is exact. *)
Definition exact_table (df : DataFrame) : Prop :=
  exactly_summable (concat (map snd df)).


(** * Properties *)

(** ** The monad: loops and exceptions *)

Lemma for_each_app {A} (pre post : list A) (body : A -> M unit) (s s1 : State) :
  for_each pre body s = (Ok tt, s1) ->
  for_each (pre ++ post) body s = for_each post body s1.
Proof.
  revert s. induction pre as [|x pre IH]; intros s Hpre; simpl in *.
  - unfold ret in Hpre. by inversion Hpre.
  - unfold bind in *. destruct (body x s) as [[[]|e] s0]; [|discriminate].
    by apply IH.
Qed.

(** An exception in the body ends the loop: the elements after it are not
    visited. *)
Lemma for_each_raise {A} (pre post : list A) (x : A) (body : A -> M unit)
    (s s1 s2 : State) (e : exn) :
  for_each pre body s = (Ok tt, s1) ->
  body x s1 = (Raise e, s2) ->
  for_each (pre ++ x :: post) body s = (Raise e, s2).
Proof.
  intros Hpre Hx. rewrite (for_each_app _ _ _ _ _ Hpre). simpl.
  unfold bind. by rewrite Hx.
Qed.

Lemma for_each_singleton_raise {A} (x : A) (body : A -> M unit) (s s' : State) (e : exn) :
  for_each [x] body s = (Raise e, s') -> body x s = (Raise e, s').
Proof.
  simpl. unfold bind, ret.
  destruct (body x s) as [[[]|e0] s0]; [done | by intros [= -> ->]].
Qed.

(** A loop whose body cannot raise visits every element. *)
Lemma for_each_total {A} (l : list A) (body : A -> M unit) :
  (forall x s, (body x s).1 = Ok tt) ->
  forall s, (for_each l body s).1 = Ok tt.
Proof.
  intros Hbody. induction l as [|x l IH]; intros s; simpl; [done|].
  unfold bind. specialize (Hbody x s).
  destruct (body x s) as [[[]|e] s0]; simpl in *; [apply IH | discriminate].
Qed.

(** ** C4: a failed [load_config] *)

Lemma load_config_raises_iff (E : Env) (config_path : string) (s : State) :
  (exists e, (load_config E config_path s).1 = Raise e)
  <-> bad_source (config_file E config_path) = true.
Proof.
  unfold load_config, json_load, try_except, bind, ret, raise.
  destruct (config_file E config_path) as [|[]| |[[|c l]|d|]]; simpl;
    split; intros H; try done; try (by eexists); by destruct H.
Qed.

Lemma load_config_success (E : Env) (config_path : string) (s : State) :
  bad_source (config_file E config_path) = false ->
  exists config, config <> [] /\
    (load_config E config_path s).1 = Ok tt /\
    config_data (load_config E config_path s).2 = config.
Proof.
  unfold load_config, json_load, try_except, bind, ret, raise.
  destruct (config_file E config_path) as [|e| |[[|c l]|d|]]; simpl; try done;
    intros _; by eexists (_ :: _).
Qed.

(** C4, as stated, fails: once a configuration has been loaded, a later
    [load_config] that raises (here on a missing file) leaves that
    configuration in [config_data]; the pipeline is not back to
    Uninitialized. *)
Lemma load_config_failure_after_success :
  let loaded := (load_config Ex.disk "test_config.json" __init__).2 in
  (load_config Ex.disk "test_config.json" __init__).1 = Ok tt /\
  (load_config Ex.disk "non_existent_file.json" loaded).1 = Raise FileNotFoundError /\
  config_data (load_config Ex.disk "non_existent_file.json" loaded).2
    = [Ex.income_by_year] /\
  config_data (load_config Ex.disk "non_existent_file.json" loaded).2 <> [].
Proof. by vm_compute. Qed.

(** C4, amended: on every state and every configuration path on which
    [load_config] raises (missing file, unparseable JSON, root neither a
    list nor an object, empty list), the call raises and leaves the state
    as it was: [config_data] is empty if it was empty before, and keeps the
    configuration loaded earlier otherwise. *)
Theorem load_config_raise_keeps_state (E : Env) (config_path : string) (s : State) :
  bad_source (config_file E config_path) = true ->
  (exists e, (load_config E config_path s).1 = Raise e) /\
  (load_config E config_path s).2 = s /\
  (config_data s = [] -> config_data (load_config E config_path s).2 = []).
Proof.
  intros Hbad. split; [by apply load_config_raises_iff|].
  assert ((load_config E config_path s).2 = s) as ->; [|done].
  revert Hbad. unfold load_config, json_load, try_except, bind, ret, raise.
  by destruct (config_file E config_path) as [|[]| |[[|c l]|d|]].
Qed.

Lemma load_config_raise_keeps_state_witness :
  bad_source (config_file Ex.disk "empty.json") = true /\
  (exists e, (load_config Ex.disk "empty.json" __init__).1 = Raise e) /\
  (load_config Ex.disk "empty.json" __init__).2 = __init__.
Proof.
  split; [reflexivity|].
  destruct (load_config_raise_keeps_state Ex.disk "empty.json" __init__)
    as (H1 & H2 & _); [reflexivity|].
  split; [exact H1 | exact H2].
Defined.

(** ** [_generate_chart], outcome by outcome *)

Lemma generate_chart_unsupported (E : Env) (df : DataFrame)
    (x_col y_col chart_type : string) (output_dir : Path)
    (base_filename y_label : string) (xs ys : list num) (s : State) :
  getitem df x_col = Some xs ->
  getitem df y_col = Some ys ->
  supported chart_type = false ->
  _generate_chart E df x_col y_col chart_type output_dir base_filename y_label s
  = (Ok tt, log_append s [(ERROR, Unknown_chart_type chart_type)]).
Proof.
  intros Hx Hy Hk. apply orb_false_elim in Hk as [Hline Hbar].
  unfold _generate_chart, getitem_or_raise, bind, plt_subplots.
  rewrite Hx, Hy; simpl. rewrite Hline, Hbar; simpl.
  by destruct s.
Qed.

Lemma generate_chart_supported (E : Env) (df : DataFrame)
    (x_col y_col chart_type : string) (output_dir : Path)
    (base_filename y_label : string) (xs ys : list num) (s : State) :
  getitem df x_col = Some xs ->
  getitem df y_col = Some ys ->
  supported chart_type = true ->
  let output_path :=
    truediv output_dir (base_filename ++ "_" ++ x_col ++ "_" ++ chart_type ++ ".png") in
  _generate_chart E df x_col y_col chart_type output_dir base_filename y_label s
  = match add_data_labels (ax_draw chart_type blank xs ys y_label) (combine xs ys) with
    | Raise e => (Raise e, with_open_figures s (S (open_figures s)))
    | Ok fig =>
        match savefig_error E output_path with
        | None =>
            (Ok tt,
             log_append
               (with_file s output_path (formatting fig base_filename x_col y_label))
               [(INFO, Generated_chart output_path)])
        | Some e => (Ok tt, log_append s [(ERROR, Failed_to_save_chart output_path e)])
        end
    end.
Proof.
  intros Hx Hy Hk output_path.
  assert (add_data_labels (ax_draw chart_type blank xs ys y_label) (combine xs ys)
          = if String.eqb chart_type "line"
            then add_data_labels (ax_draw "line" blank xs ys y_label) (combine xs ys)
            else add_data_labels (ax_draw "bar" blank xs ys y_label) (combine xs ys))
    as ->.
  { apply orb_true_iff in Hk as [Hk|Hk]; apply String.eqb_eq in Hk; by subst. }
  unfold _generate_chart, getitem_or_raise, bind, plt_subplots, lift.
  rewrite Hx, Hy; simpl.
  destruct (String.eqb chart_type "line") eqn:Hline; simpl.
  - destruct (add_data_labels _ _) as [fig|e]; simpl; [|done].
    unfold try_finally, try_except, savefig, bind; simpl. fold output_path.
    destruct (savefig_error E output_path); simpl; by destruct s.
  - unfold supported in Hk. rewrite Hline in Hk. simpl in Hk. rewrite Hk; simpl.
    destruct (add_data_labels _ _) as [fig|e]; simpl; [|done].
    unfold try_finally, try_except, savefig, bind; simpl. fold output_path.
    destruct (savefig_error E output_path); simpl; by destruct s.
Qed.

(** ** C8: the figure of a render call *)

(** Whenever [_generate_chart] returns, the figure it opened is closed
    again: after a successful save, after a failed save and for an
    unsupported chart kind. *)
Lemma generate_chart_return_closes_figure (E : Env) (df : DataFrame)
    (x_col y_col chart_type : string) (output_dir : Path)
    (base_filename y_label : string) (xs ys : list num) (s : State) :
  getitem df x_col = Some xs ->
  getitem df y_col = Some ys ->
  let r := _generate_chart E df x_col y_col chart_type output_dir base_filename y_label s in
  r.1 = Ok tt -> open_figures r.2 = open_figures s.
Proof.
  intros Hx Hy r. subst r.
  destruct (supported chart_type) eqn:Hk.
  - rewrite (generate_chart_supported _ _ _ _ _ _ _ _ xs ys) by done.
    destruct (add_data_labels _ _); [|done].
    by destruct (savefig_error _ _).
  - by rewrite (generate_chart_unsupported _ _ _ _ _ _ _ _ xs ys).
Qed.

(** C8 at its failing input: the year 2023 of [Ex.ledger] sums to
    infinity, [int(y)] raises [OverflowError] in the data-label loop, and
    [_generate_chart] is left with its figure still open; over the batch
    of [Ex.ledgers] one figure stays open after [_process_config_entry]. *)
Theorem generate_chart_plot_error_leaves_figure_open :
  groupby_sum (setitem Ex.ledger plot_col_name [Fin 100; PInf]) "Year" plot_col_name
  = Ok [("Year", [Fin 2023]); (plot_col_name, [PInf])] /\
  _generate_chart Ex.ledgers [("Year", [Fin 2023]); (plot_col_name, [PInf])]
    "Year" plot_col_name "line" ["data"] "ledger" "Amount" __init__
  = (Raise OverflowError, with_open_figures __init__ 1) /\
  open_figures
    (_process_config_entry Ex.ledgers (Ex.by_year_and_month ["Year"]) __init__).2 = 1.
Proof. by vm_compute. Qed.

(** ** Frames *)

Lemma has_column_getitem (c : string) (df : DataFrame) :
  has_column c df = true <-> is_Some (getitem df c).
Proof.
  unfold has_column, frame_columns. rewrite bool_decide_eq_true.
  induction df as [|[c' col] df IH]; simpl.
  - split; [by intros ?%elem_of_nil | by intros [? ?]].
  - rewrite elem_of_cons. destruct (String.eqb_spec c c') as [->|Hne].
    + split; [by eexists | by left].
    + rewrite <- IH. split; [intros [->|H]; [done | exact H] | by right].
Qed.

Lemma has_column_false (c : string) (df : DataFrame) :
  has_column c df = false <-> getitem df c = None.
Proof.
  rewrite <- not_true_iff_false, has_column_getitem, <- eq_None_not_Some. done.
Qed.

Lemma getitem_setitem_eq (df : DataFrame) (c : string) (col : list num) :
  getitem (setitem df c col) c = Some col.
Proof.
  induction df as [|[c' col'] df IH]; simpl.
  - by rewrite String.eqb_refl.
  - destruct (String.eqb_spec c c') as [->|Hne]; simpl.
    + by rewrite String.eqb_refl.
    + by apply String.eqb_neq in Hne as ->.
Qed.

Lemma getitem_setitem_ne (df : DataFrame) (c c' : string) (col : list num) :
  c <> c' -> getitem (setitem df c col) c' = getitem df c'.
Proof.
  intros Hne. induction df as [|[c0 col0] df IH]; simpl.
  - by apply not_eq_sym, String.eqb_neq in Hne as ->.
  - destruct (String.eqb_spec c c0) as [->|Hne0]; simpl.
    + by apply not_eq_sym, String.eqb_neq in Hne as ->.
    + by rewrite IH.
Qed.

(** A grouped frame has the two columns the render call reads. *)
Lemma groupby_sum_columns (df : DataFrame) (g m : string) :
  has_column g df = true ->
  has_column m df = true ->
  exists grouped xs ys,
    groupby_sum df g m = Ok grouped /\
    getitem grouped g = Some xs /\ getitem grouped m = Some ys.
Proof.
  intros [keys Hg]%has_column_getitem [vals Hm]%has_column_getitem.
  unfold groupby_sum. rewrite Hg, Hm.
  unfold has_column; simpl. case_bool_decide as Hin.
  - apply list_elem_of_singleton in Hin as ->.
    do 3 eexists. split; [done|]. simpl. by rewrite String.eqb_refl.
  - do 3 eexists. split; [done|]. simpl. rewrite String.eqb_refl.
    destruct (String.eqb_spec m g) as [->|_]; [|by rewrite String.eqb_refl].
    exfalso. apply Hin. by apply list_elem_of_singleton.
Qed.

Lemma log_append_app (s : State) (l1 l2 : list (Level * Message)) :
  log_append (log_append s l1) l2 = log_append s (l1 ++ l2).
Proof. unfold log_append; simpl. by rewrite <- app_assoc. Qed.

Lemma log_append_nil (s : State) : log_append s [] = s.
Proof. destruct s. unfold log_append; simpl. by rewrite app_nil_r. Qed.

(** ** C5: a chart kind outside bar and line *)

(** C5: for every aggregated series, a render call whose chart kind is
    neither "bar" nor "line" returns without an exception, writes no file
    and leaves no figure open; and in the group loop of a file every
    group column still gets its aggregation and its render call, each
    ending in the same logged error (a group column absent from the table
    is skipped with a warning). *)
Theorem unsupported_chart_kind_aborts_only_that_render (E : Env) (file_path : Path)
    (df : DataFrame) (groupby_input : names) (chart_type y_label : string)
    (s : State) :
  supported chart_type = false ->
  has_column plot_col_name df = true ->
  (forall group_col s', has_column group_col df = true ->
     exists grouped_df,
       groupby_sum df group_col plot_col_name = Ok grouped_df /\
       _generate_chart E grouped_df group_col plot_col_name chart_type
         (parent file_path) (stem file_path) y_label s'
       = (Ok tt, log_append s' [(ERROR, Unknown_chart_type chart_type)])) /\
  let after := handle_groupby E file_path df groupby_input chart_type y_label s in
  after
  = (Ok tt,
     log_append s
       (map (fun group_col =>
               if has_column group_col df
               then (ERROR, Unknown_chart_type chart_type)
               else (WARNING, Group_column_not_found group_col (name file_path)))
          (as_list groupby_input))) /\
  files after.2 = files s /\
  open_figures after.2 = open_figures s.
Proof.
  intros Hk Hplot.
  assert (forall group_col s', has_column group_col df = true ->
     exists grouped_df,
       groupby_sum df group_col plot_col_name = Ok grouped_df /\
       _generate_chart E grouped_df group_col plot_col_name chart_type
         (parent file_path) (stem file_path) y_label s'
       = (Ok tt, log_append s' [(ERROR, Unknown_chart_type chart_type)])) as Hrender.
  { intros g s' Hg.
    destruct (groupby_sum_columns df g plot_col_name Hg Hplot)
      as (grouped & xs & ys & Hsum & Hx & Hy).
    exists grouped. split; [done|]. by eapply generate_chart_unsupported. }
  split; [exact Hrender|].
  assert (handle_groupby E file_path df groupby_input chart_type y_label s
          = (Ok tt,
             log_append s
               (map (fun group_col =>
                       if has_column group_col df
                       then (ERROR, Unknown_chart_type chart_type)
                       else (WARNING, Group_column_not_found group_col (name file_path)))
                  (as_list groupby_input)))) as ->; [|done].
  unfold handle_groupby. generalize (as_list groupby_input) as groups.
  intros groups. revert s.
  induction groups as [|g groups IH]; intros s; simpl.
  - by rewrite log_append_nil.
  - unfold bind at 1. destruct (has_column g df) eqn:Hg; simpl.
    + destruct (Hrender g s Hg) as (grouped & Hsum & Hgen).
      unfold bind, lift. rewrite Hsum, Hgen.
      by rewrite IH, log_append_app.
    + unfold logger. by rewrite IH, log_append_app.
Qed.

Lemma unsupported_chart_kind_aborts_only_that_render_witness :
  let after :=
    handle_groupby Ex.disk Ex.financials_csv
      (setitem Ex.financials plot_col_name [Fin 100; Fin 200; Fin 150; Fin 250])
      (Multiple ["Year"; "Quarter"; "Amount"]) "pie" "Total Amount" __init__ in
  after
  = (Ok tt,
     log_append __init__
       [(ERROR, Unknown_chart_type "pie");
        (WARNING, Group_column_not_found "Quarter" "test_financials.csv");
        (ERROR, Unknown_chart_type "pie")]) /\
  files after.2 = ∅.
Proof.
  destruct (unsupported_chart_kind_aborts_only_that_render Ex.disk Ex.financials_csv
              (setitem Ex.financials plot_col_name [Fin 100; Fin 200; Fin 150; Fin 250])
              (Multiple ["Year"; "Quarter"; "Amount"]) "pie" "Total Amount" __init__)
    as (_ & Hloop & Hfiles & _); [reflexivity | reflexivity |].
  split; [exact Hloop | exact Hfiles].
Defined.

(** ** C6: a file without the measure *)

(** The loop over the files catches whatever a file raises. *)
Lemma file_loop_body_total (E : Env) (config : Config) (file_path : Path) (s : State) :
  (file_loop_body E config file_path s).1 = Ok tt.
Proof.
  unfold file_loop_body. destruct (is_dir E file_path); [done|].
  unfold try_except, Exception.
  by destruct (_process_single_file E file_path config s) as [[[]|e] s'].
Qed.

Lemma filter_present_nil (df : DataFrame) (target_cols : list string) :
  existsb (fun c => has_column c df) target_cols = false ->
  List.filter (fun c => has_column c df) target_cols = [].
Proof.
  induction target_cols as [|c l IH]; simpl; [done|].
  intros [-> Hl]%orb_false_elim. by apply IH.
Qed.

Lemma handle_columns_absent (file_name : string) (config : Config) (target_cols : names)
    (df : DataFrame) (s : State) :
  KEY_COLUMNS config = Some target_cols ->
  measure_present config df = false ->
  exists warning,
    handle_columns file_name config target_cols df s
    = (Ok (df, None), log_append s [(WARNING, warning)]).
Proof.
  unfold measure_present. intros -> Habsent.
  destruct target_cols as [c|cs]; simpl.
  - rewrite Habsent; simpl. by eexists.
  - rewrite (filter_present_nil _ _ Habsent); simpl. by eexists.
Qed.

Lemma process_single_file_absent (E : Env) (file_path : Path) (config : Config)
    (df : DataFrame) :
  read_csv E file_path = Ok df ->
  measure_present config df = false ->
  exists warning, forall s,
    _process_single_file E file_path config s
    = (Ok tt, log_append s [(INFO, Processing (name file_path)); (WARNING, warning)]).
Proof.
  intros Hread Habsent.
  assert (forall s,
    _process_single_file E file_path config s
    = match KEY_COLUMNS config, KEY_GROUPBY config, KEY_CHART_TYPE config with
      | Some target_cols, Some groupby_input, Some chart_type =>
          if negb (truthy_names target_cols) || negb (truthy_names groupby_input)
             || negb (truthy chart_type)
          then (Ok tt, log_append s [(INFO, Processing (name file_path));
                  (WARNING, Missing_required_config_keys (name file_path))])
          else
            match handle_columns (name file_path) config target_cols df
                    (log_append s [(INFO, Processing (name file_path))]) with
            | (Ok (_, None), s') => (Ok tt, s')
            | (Ok (df, Some y_label), s') =>
                handle_groupby E file_path df groupby_input chart_type y_label s'
            | (Raise e, s') => (Raise e, s')
            end
      | _, _, _ =>
          (Ok tt, log_append s [(INFO, Processing (name file_path));
             (WARNING, Missing_required_config_keys (name file_path))])
      end) as Hshape.
  { intros s. unfold _process_single_file, bind, try_except, lift, logger, ret.
    rewrite Hread; simpl.
    destruct (KEY_COLUMNS config) as [target_cols|],
             (KEY_GROUPBY config) as [groupby_input|],
             (KEY_CHART_TYPE config) as [chart_type|];
      rewrite ?log_append_app; try done.
    destruct (negb (truthy_names target_cols) || negb (truthy_names groupby_input)
              || negb (truthy chart_type)); rewrite ?log_append_app; [done|].
    by destruct (handle_columns _ _ _ _ _) as [[[df' [y_label|]]|e] s']. }
  destruct (KEY_COLUMNS config) as [target_cols|] eqn:Hcols;
    [|eexists; intros s; by rewrite Hshape].
  destruct (KEY_GROUPBY config) as [groupby_input|];
    [|eexists; intros s; by rewrite Hshape].
  destruct (KEY_CHART_TYPE config) as [chart_type|];
    [|eexists; intros s; by rewrite Hshape].
  destruct (negb (truthy_names target_cols) || negb (truthy_names groupby_input)
            || negb (truthy chart_type)) eqn:Hkeys;
    [eexists; intros s; by rewrite Hshape|].
  destruct target_cols as [c|cs]; unfold measure_present in Habsent;
    rewrite Hcols in Habsent.
  - exists (Column_not_found (name file_path) c). intros s.
    rewrite Hshape. unfold handle_columns. rewrite Habsent; simpl.
    by rewrite log_append_app.
  - exists (None_of_the_columns_found (name file_path) cs). intros s.
    rewrite Hshape. unfold handle_columns.
    rewrite (filter_present_nil _ _ Habsent); simpl.
    by rewrite log_append_app.
Qed.

(** C6: when the parsed table of a file has no column the descriptor's
    measure names, the column step leaves the table as it was and returns,
    [_process_single_file] returns normally having only logged a warning
    (no file written, no figure opened), and the loop over the files of
    the pattern goes on with the files after it. *)
Theorem absent_measure_skips_only_that_file (E : Env) (file_path : Path)
    (config : Config) (df : DataFrame) :
  read_csv E file_path = Ok df ->
  is_dir E file_path = false ->
  measure_present config df = false ->
  (forall target_cols s, KEY_COLUMNS config = Some target_cols ->
     exists warning,
       handle_columns (name file_path) config target_cols df s
       = (Ok (df, None), log_append s [(WARNING, warning)])) /\
  exists warning,
    (forall s,
       _process_single_file E file_path config s
       = (Ok tt, log_append s [(INFO, Processing (name file_path));
                               (WARNING, warning)])) /\
    (forall before after s,
       for_each (before ++ file_path :: after) (file_loop_body E config) s
       = for_each after (file_loop_body E config)
           (log_append (for_each before (file_loop_body E config) s).2
              [(INFO, Processing (name file_path)); (WARNING, warning)])).
Proof.
  intros Hread Hdir Habsent. split.
  - intros target_cols s Hcols. by apply handle_columns_absent.
  - destruct (process_single_file_absent E file_path config df Hread Habsent)
      as [warning Hfile].
    exists warning. split; [exact Hfile|].
    intros before after s.
    pose proof (for_each_total before (file_loop_body E config)
                  (file_loop_body_total E config) s) as Hbefore.
    destruct (for_each before (file_loop_body E config) s) as [r s1] eqn:Hrun.
    simpl in Hbefore. subst r.
    rewrite (for_each_app _ _ _ _ _ Hrun). simpl.
    unfold bind at 1, file_loop_body at 1. rewrite Hdir.
    unfold try_except. by rewrite Hfile.
Qed.

Lemma absent_measure_skips_only_that_file_witness :
  exists warning,
    for_each [Ex.financials_csv; Ex.financials_csv]
      (file_loop_body Ex.disk
         {| KEY_DIRECTORY := Some "data/*.csv"; KEY_COLUMNS := Some (Multiple ["Salary"; "Bonus"]);
            KEY_GROUPBY := Some (Single "Year"); KEY_CHART_TYPE := Some "line";
            KEY_CHART_LABEL := None |}) __init__
    = for_each [Ex.financials_csv]
        (file_loop_body Ex.disk
           {| KEY_DIRECTORY := Some "data/*.csv"; KEY_COLUMNS := Some (Multiple ["Salary"; "Bonus"]);
              KEY_GROUPBY := Some (Single "Year"); KEY_CHART_TYPE := Some "line";
              KEY_CHART_LABEL := None |})
        (log_append __init__
           [(INFO, Processing "test_financials.csv"); (WARNING, warning)]).
Proof.
  destruct (absent_measure_skips_only_that_file Ex.disk Ex.financials_csv
              {| KEY_DIRECTORY := Some "data/*.csv";
                 KEY_COLUMNS := Some (Multiple ["Salary"; "Bonus"]);
                 KEY_GROUPBY := Some (Single "Year"); KEY_CHART_TYPE := Some "line";
                 KEY_CHART_LABEL := None |} Ex.financials)
    as (_ & warning & _ & Hloop); [reflexivity | reflexivity | reflexivity |].
  exists warning. exact (Hloop [] [Ex.financials_csv] __init__).
Defined.

(** ** C3: a measure given as a sequence of names *)

Lemma select_present (df : DataFrame) (target_cols : list string) :
  exists cols,
    select df (List.filter (fun c => has_column c df) target_cols) = Ok cols /\
    forall i, map (fun col => nth i col NaN) cols = row_cells df i target_cols.
Proof.
  induction target_cols as [|c l (cols & Hsel & Hrow)]; simpl.
  - by exists [].
  - destruct (has_column c df) eqn:Hc.
    + apply has_column_getitem in Hc as [col Hcol].
      exists (col :: cols). simpl. rewrite Hcol, Hsel. split; [done|].
      intros i. unfold row_cells in *. simpl. rewrite ?Hcol. simpl.
      by rewrite Hrow.
    + apply has_column_false in Hc.
      exists cols. split; [done|].
      intros i. unfold row_cells in *. simpl. by rewrite ?Hc.
Qed.



(** The table of [test_process_multiple_columns_sum]: the synthetic
    measure is 55000 and 58000. *)
Example salary_plus_bonus :
  handle_columns "multi_col.csv" Ex.salary_and_bonus (Multiple ["Salary"; "Bonus"])
    Ex.multi_col __init__
  = (Ok ((Ex.multi_col ++ [(plot_col_name, [Fin 55000; Fin 58000])])%list,
         Some "Salary + Bonus"), __init__).
Proof. reflexivity. Qed.

(** ** What a step may change: preserved relations *)

Section Preserves.
Context (R : State -> State -> Prop) `{!PreOrder R}.

Lemma preserves_ret {A} (a : A) : preserves R (ret a).
Proof. intros s. simpl. reflexivity. Qed.

Lemma preserves_raise {A} (e : exn) : preserves R (raise (A:=A) e).
Proof. intros s. simpl. reflexivity. Qed.

Lemma preserves_lift {A} (o : Outcome A) : preserves R (lift o).
Proof. intros s. simpl. reflexivity. Qed.

Lemma preserves_bind {A B} (m : M A) (k : A -> M B) :
  preserves R m -> (forall a, preserves R (k a)) -> preserves R (bind m k).
Proof.
  intros Hm Hk s. unfold bind. specialize (Hm s).
  destruct (m s) as [[a|e] s']; simpl in *; [|done].
  etrans; [exact Hm | apply Hk].
Qed.

Lemma preserves_try_except {A} (body : M A) (cls : exn -> bool) (handler : exn -> M A) :
  preserves R body -> (forall e, preserves R (handler e)) ->
  preserves R (try_except body cls handler).
Proof.
  intros Hbody Hhandler s. unfold try_except. specialize (Hbody s).
  destruct (body s) as [[a|e] s']; simpl in *; [done|].
  destruct (cls e); [|done].
  etrans; [exact Hbody | apply Hhandler].
Qed.

Lemma preserves_try_finally {A} (body : M A) (cleanup : M unit) :
  preserves R body -> preserves R cleanup -> preserves R (try_finally body cleanup).
Proof.
  intros Hbody Hcleanup s. unfold try_finally. specialize (Hbody s).
  destruct (body s) as [r s']. specialize (Hcleanup s').
  destruct (cleanup s') as [[[]|e] s'']; simpl in *; by etrans.
Qed.

Lemma preserves_for_each {A} (l : list A) (body : A -> M unit) :
  (forall x, x ∈ l -> preserves R (body x)) -> preserves R (for_each l body).
Proof.
  induction l as [|x l IH]; intros Hbody; simpl.
  - apply preserves_ret.
  - apply preserves_bind.
    + apply Hbody. by left.
    + intros _. apply IH. intros y Hy. apply Hbody. by right.
Qed.

(** The steps that leave the files alone preserve a relation that only
    looks at the files. *)
Hypothesis R_files : forall s s', files s = files s' -> R s s'.

Lemma preserves_logger (lvl : Level) (msg : Message) : preserves R (logger lvl msg).
Proof. intros s. by apply R_files. Qed.

Lemma preserves_plt_subplots : preserves R plt_subplots.
Proof. intros s. by apply R_files. Qed.

Lemma preserves_plt_close : preserves R plt_close.
Proof. intros s. by apply R_files. Qed.

Lemma preserves_getitem_or_raise (df : DataFrame) (c : string) :
  preserves R (getitem_or_raise df c).
Proof.
  unfold getitem_or_raise.
  destruct (getitem df c); [apply preserves_ret | apply preserves_raise].
Qed.

End Preserves.

#[global] Instance writes_only_preorder (P : Path -> Figure -> Prop) :
  PreOrder (writes_only P).
Proof.
  split.
  - intros s path fig Hfig. by left.
  - intros s1 s2 s3 H12 H23 path fig Hfig.
    destruct (H23 path fig Hfig) as [Hfig2|HP]; [by apply H12 | by right].
Qed.

Lemma writes_only_files (P : Path -> Figure -> Prop) (s s' : State) :
  files s = files s' -> writes_only P s s'.
Proof. intros Hfiles path fig Hfig. left. by rewrite Hfiles. Qed.

Lemma writes_only_mono (P Q : Path -> Figure -> Prop) (s s' : State) :
  (forall path fig, P path fig -> Q path fig) ->
  writes_only P s s' -> writes_only Q s s'.
Proof.
  intros HPQ HP path fig Hfig.
  destruct (HP path fig Hfig) as [?|?]; [by left | right; by apply HPQ].
Qed.

Lemma preserves_mono {A} (P Q : Path -> Figure -> Prop) (m : M A) :
  (forall path fig, P path fig -> Q path fig) ->
  preserves (writes_only P) m -> preserves (writes_only Q) m.
Proof. intros HPQ Hm s. eapply writes_only_mono; [exact HPQ | apply Hm]. Qed.

Lemma preserves_savefig (E : Env) (P : Path -> Figure -> Prop) (fig : Figure)
    (output_path : Path) :
  P output_path fig -> preserves (writes_only P) (savefig E fig output_path).
Proof.
  intros HP s path fig' Hfig. unfold savefig in Hfig.
  destruct (savefig_error E output_path); simpl in Hfig; [by left|].
  destruct (decide (output_path = path)) as [<-|Hne].
  - rewrite lookup_insert_eq in Hfig. inversion Hfig; subst. by right.
  - rewrite lookup_insert_ne in Hfig by done. by left.
Qed.

(** A render call writes at most the figure [rendered] describes. *)
Lemma generate_chart_writes (E : Env) (df : DataFrame) (x_col y_col chart_type : string)
    (output_dir : Path) (base_filename y_label : string) :
  preserves
    (writes_only (rendered df x_col y_col chart_type output_dir base_filename y_label))
    (_generate_chart E df x_col y_col chart_type output_dir base_filename y_label).
Proof.
  intros s.
  destruct (getitem df x_col) as [xs|] eqn:Hx; cycle 1.
  { apply writes_only_files.
    unfold _generate_chart, bind, getitem_or_raise. by rewrite Hx. }
  destruct (getitem df y_col) as [ys|] eqn:Hy; cycle 1.
  { apply writes_only_files.
    unfold _generate_chart, bind, getitem_or_raise. by rewrite Hx, Hy. }
  destruct (supported chart_type) eqn:Hk.
  - rewrite (generate_chart_supported _ _ _ _ _ _ _ _ xs ys) by done.
    destruct (add_data_labels _ _) as [drawn|e] eqn:Hdrawn;
      [|by apply writes_only_files].
    destruct (savefig_error _ _); [by apply writes_only_files|].
    intros path fig Hfig. simpl in Hfig.
    match type of Hfig with
    | <[?p := _]> _ !! _ = _ => destruct (decide (p = path)) as [<-|Hne]
    end.
    + rewrite lookup_insert_eq in Hfig. inversion Hfig; subst.
      right. split; [done|]. split; [done|]. by exists xs, ys, drawn.
    + rewrite lookup_insert_ne in Hfig by done. by left.
  - rewrite (generate_chart_unsupported _ _ _ _ _ _ _ _ xs ys) by done.
    by apply writes_only_files.
Qed.

Lemma handle_groupby_writes (E : Env) (file_path : Path) (df : DataFrame)
    (groupby_input : names) (chart_type y_label : string) :
  preserves
    (writes_only (rendered_group file_path df groupby_input chart_type y_label))
    (handle_groupby E file_path df groupby_input chart_type y_label).
Proof.
  unfold handle_groupby. apply preserves_for_each; [apply _|].
  intros g Hg. destruct (negb (has_column g df)).
  - apply preserves_logger; first [apply _ | apply writes_only_files].
  - intros s. unfold bind, lift.
    destruct (groupby_sum df g plot_col_name) as [grouped|e] eqn:Hsum;
      [|reflexivity].
    eapply writes_only_mono; [|apply generate_chart_writes].
    intros path fig Hr. by exists g, grouped.
Qed.

Lemma handle_columns_files (file_name : string) (config : Config) (target_cols : names)
    (df : DataFrame) (s : State) :
  files (handle_columns file_name config target_cols df s).2 = files s.
Proof.
  unfold handle_columns. destruct target_cols as [c|cs].
  - destruct (negb (has_column c df)); [done|].
    unfold bind, getitem_or_raise. by destruct (getitem df c).
  - case_bool_decide; [done|]. unfold bind, lift. by destruct (select df _).
Qed.

Lemma process_single_file_writes (E : Env) (file_path : Path) (config : Config) :
  preserves (writes_only (rendered_file E file_path config))
    (_process_single_file E file_path config).
Proof.
  intros s. unfold _process_single_file, bind, try_except, lift, logger, ret.
  destruct (read_csv E file_path) as [df|e] eqn:Hread; simpl;
    [|by apply writes_only_files].
  destruct (KEY_COLUMNS config) as [target_cols|] eqn:Hcols;
    [|by apply writes_only_files].
  destruct (KEY_GROUPBY config) as [groupby_input|] eqn:Hgroup;
    [|by apply writes_only_files].
  destruct (KEY_CHART_TYPE config) as [chart_type|] eqn:Hkind;
    [|by apply writes_only_files].
  destruct (negb (truthy_names target_cols) || negb (truthy_names groupby_input)
            || negb (truthy chart_type)); [by apply writes_only_files|].
  pose proof (handle_columns_files (name file_path) config target_cols df
                (log_append s [(INFO, Processing (name file_path))])) as Hfiles.
  destruct (handle_columns _ _ _ _ _) as [[[df' [y_label|]]|e] s1] eqn:Hprep;
    simpl in Hfiles; try (apply writes_only_files; simpl; by rewrite Hfiles).
  etrans; [apply writes_only_files; symmetry; exact Hfiles|].
  eapply writes_only_mono; [|apply handle_groupby_writes].
  intros path fig Hr.
  exists df, target_cols, groupby_input, chart_type.
  by exists (log_append s [(INFO, Processing (name file_path))]), df', y_label, s1.
Qed.

(** ** C10: the chart label of the descriptor *)

(** The data-label loop only adds texts. *)
Lemma add_data_labels_fields (fig drawn : Figure) (pts : list (num * num)) :
  add_data_labels fig pts = Ok drawn ->
  kind drawn = kind fig /\ points drawn = points fig /\ label drawn = label fig.
Proof.
  revert fig. induction pts as [|[x y] pts IH]; intros fig; simpl.
  - by intros [= <-].
  - destruct (int_of_num y) as [n|e]; [|done].
    intros Hrest. by destruct (IH _ Hrest) as (-> & -> & ->).
Qed.

(** A chart label in the descriptor is the y label, whatever it is. *)
Lemma handle_columns_chart_label (file_name : string) (config : Config)
    (target_cols : names) (df df' : DataFrame) (chart_label y_label : string)
    (s s1 : State) :
  KEY_CHART_LABEL config = Some chart_label ->
  handle_columns file_name config target_cols df s = (Ok (df', Some y_label), s1) ->
  y_label = chart_label.
Proof.
  intros Hlabel. unfold handle_columns. rewrite Hlabel.
  destruct target_cols as [c|cs].
  - destruct (negb (has_column c df)); [done|].
    unfold bind, getitem_or_raise.
    destruct (getitem df c); simpl; [|done]. by intros [= _ <- _].
  - case_bool_decide; [done|]. unfold bind, lift.
    destruct (select df _); simpl; [|done].
    by intros [= _ <- _].
Qed.

Lemma rendered_labels (df : DataFrame) (x_col y_col chart_type : string)
    (output_dir : Path) (base_filename y_label : string) (path : Path) (fig : Figure) :
  rendered df x_col y_col chart_type output_dir base_filename y_label path fig ->
  ylabel fig = y_label /\ label fig = y_label.
Proof.
  intros (_ & _ & xs & ys & drawn & _ & _ & Hdrawn & ->).
  split; [done|]. simpl.
  by destruct (add_data_labels_fields _ _ _ Hdrawn) as (_ & _ & ->).
Qed.

Lemma chart_label_is_used (E : Env) (file_path : Path) (config : Config)
    (chart_label : string) (s : State) (path : Path) (fig : Figure) :
  KEY_CHART_LABEL config = Some chart_label ->
  files (_process_single_file E file_path config s).2 !! path = Some fig ->
  files s !! path = Some fig \/ (ylabel fig = chart_label /\ label fig = chart_label).
Proof.
  intros Hlabel Hfig.
  destruct (process_single_file_writes E file_path config s path fig Hfig)
    as [Hold|Hnew]; [by left | right].
  destruct Hnew as (df & target_cols & groupby_input & chart_type & s0 & df' & y_label
                    & s1 & _ & _ & _ & _ & Hprep & g & grouped & _ & _ & Hr).
  rewrite <- (handle_columns_chart_label _ _ _ _ _ _ _ _ _ Hlabel Hprep).
  by eapply rendered_labels.
Qed.

(** C10: when the descriptor binds the chart-label key to the empty
    string, the y label the column step hands on is the empty string, not
    the measure name or the joined names, and every figure
    [_process_single_file] saves has the empty string as its y-axis label
    and as the label of its legend entry. *)
Theorem empty_chart_label_is_not_replaced (E : Env) (file_path : Path) (config : Config) :
  KEY_CHART_LABEL config = Some "" ->
  (forall target_cols df s df' y_label s1,
     handle_columns (name file_path) config target_cols df s
     = (Ok (df', Some y_label), s1) ->
     y_label = "") /\
  (forall s path fig,
     files (_process_single_file E file_path config s).2 !! path = Some fig ->
     files s !! path = Some fig \/ (ylabel fig = "" /\ label fig = "")).
Proof.
  intros Hlabel. split.
  - intros target_cols df s df' y_label s1 Hprep.
    by eapply handle_columns_chart_label.
  - intros s path fig Hfig. by eapply chart_label_is_used.
Qed.

Lemma empty_chart_label_is_not_replaced_witness :
  exists fig,
    files (_process_single_file Ex.disk Ex.financials_csv Ex.unlabelled __init__).2
      !! ["data"; "test_financials_Year_bar.png"] = Some fig /\
    ylabel fig = "" /\ label fig = "".
Proof.
  destruct (empty_chart_label_is_not_replaced Ex.disk Ex.financials_csv Ex.unlabelled)
    as [_ Hfiles]; [reflexivity|].
  destruct (files (_process_single_file Ex.disk Ex.financials_csv Ex.unlabelled __init__).2
              !! ["data"; "test_financials_Year_bar.png"]) as [fig|] eqn:Hfig;
    [|vm_compute in Hfig; discriminate Hfig].
  exists fig. split; [reflexivity|].
  destruct (Hfiles __init__ _ fig Hfig) as [Hold|Hnew];
    [vm_compute in Hold; discriminate Hold | exact Hnew].
Defined.

(** ** C9: the data labels *)

(** [int(y)] drops the fractional part. *)
Lemma int_of_num_toward_zero (q : Q) (n : Z) :
  int_of_num (Fin q) = Ok n -> toward_zero q n.
Proof.
  destruct q as [a d]. simpl. intros [= <-].
  pose proof (Z.quot_rem a (Z.pos d) ltac:(lia)) as Hdiv.
  unfold toward_zero, Qle, Qlt; simpl. split; intros Ha.
  - pose proof (Z.rem_bound_pos a (Z.pos d) ltac:(lia) ltac:(lia)). lia.
  - pose proof (Z.rem_nonpos a (Z.pos d) ltac:(lia) ltac:(lia)).
    pose proof (Z.rem_bound_abs a (Z.pos d) ltac:(lia)). lia.
Qed.

(** The data-label loop puts one text at every point, in the order of the
    points; the text is the point's value without its fractional part. *)
Lemma add_data_labels_texts (fig drawn : Figure) (pts : list (num * num)) :
  add_data_labels fig pts = Ok drawn ->
  exists labels,
    texts drawn = (texts fig ++ labels)%list /\
    map fst labels = pts /\
    Forall (fun t => exists q n, t.1.2 = Fin q /\ t.2 = str n /\ toward_zero q n) labels.
Proof.
  revert fig. induction pts as [|[x y] pts IH]; intros fig; simpl.
  - intros [= <-]. exists []. by rewrite app_nil_r.
  - destruct (int_of_num y) as [n|e] eqn:Hint; [|done].
    intros (labels & Htexts & Hpts & Hall)%IH.
    exists ((x, y, str n) :: labels). split; [|split].
    + rewrite Htexts. simpl. by rewrite <- app_assoc.
    + simpl. by rewrite Hpts.
    + constructor; [|done]. simpl.
      destruct y as [q| | |]; try done.
      exists q, n. by pose proof (int_of_num_toward_zero q n Hint).
Qed.

(** C9, as stated, fails: the year 2023 of [Ex.fractions] sums to 2.75
    (22/8), the bar chart saved for it carries the text "2" at that point,
    and the integer nearest to 2.75 is 3. *)
Lemma data_label_is_not_the_nearest_integer :
  exists fig,
    files (_process_single_file Ex.fractions_disk Ex.fractions_csv Ex.income_by_year
             __init__).2 !! ["data"; "fractions_Year_bar.png"] = Some fig /\
    points fig = [(Fin 2023, Fin (22 # 8))] /\
    texts fig = [(Fin 2023, Fin (22 # 8), "2")] /\
    nearest (22 # 8) 3 /\
    forall n, nearest (22 # 8) n -> str n <> "2".
Proof.
  eexists. split; [by vm_compute|]. split; [done|]. split; [done|]. split.
  - unfold nearest. apply Qabs_Qle_condition. unfold Qle; simpl. lia.
  - intros n Hn Hstr. unfold nearest in Hn.
    apply Qabs_Qle_condition in Hn as [Hlo Hhi].
    unfold Qle in Hlo, Hhi; simpl in Hlo, Hhi.
    assert (n = 3%Z) as -> by lia. discriminate Hstr.
Qed.

(** C9, amended: in every figure a render call saves (bar or line) there
    is one text per (groupKey, sumValue) point, in series order, and the
    text at a point is its sum value truncated toward zero, Python's
    [int(y)]: the integer [n] with [n <= y < n + 1] for [y >= 0] and
    [n - 1 < y <= n] for [y <= 0]. *)
Theorem data_labels_are_truncated (E : Env) (df : DataFrame)
    (x_col y_col chart_type : string) (output_dir : Path)
    (base_filename y_label : string) (s : State) (path : Path) (fig : Figure) :
  files (_generate_chart E df x_col y_col chart_type output_dir base_filename y_label s).2
    !! path = Some fig ->
  files s !! path = Some fig \/
  (map fst (texts fig) = points fig /\
   Forall (fun t => exists q n, t.1.2 = Fin q /\ t.2 = str n /\ toward_zero q n)
     (texts fig)).
Proof.
  intros Hfig.
  destruct (generate_chart_writes E df x_col y_col chart_type output_dir base_filename
              y_label s path fig Hfig) as [Hold|Hnew]; [by left | right].
  destruct Hnew as (_ & _ & xs & ys & drawn & _ & _ & Hdrawn & ->). simpl.
  destruct (add_data_labels_fields _ _ _ Hdrawn) as (_ & -> & _).
  destruct (add_data_labels_texts _ _ _ Hdrawn) as (labels & -> & Hpts & Hall).
  by simpl.
Qed.

Lemma data_labels_are_truncated_witness :
  exists fig,
    files (_generate_chart Ex.fractions_disk
             [("Year", [Fin 2023]); (plot_col_name, [Fin (22 # 8)])]
             "Year" plot_col_name "bar" ["data"] "fractions" "Amount" __init__).2
      !! ["data"; "fractions_Year_bar.png"] = Some fig /\
    map fst (texts fig) = points fig /\
    Forall (fun t => exists q n, t.1.2 = Fin q /\ t.2 = str n /\ toward_zero q n)
      (texts fig).
Proof.
  destruct (files (_generate_chart Ex.fractions_disk
             [("Year", [Fin 2023]); (plot_col_name, [Fin (22 # 8)])]
             "Year" plot_col_name "bar" ["data"] "fractions" "Amount" __init__).2
      !! ["data"; "fractions_Year_bar.png"]) as [fig|] eqn:Hfig;
    [|vm_compute in Hfig; discriminate Hfig].
  exists fig. split; [reflexivity|].
  destruct (data_labels_are_truncated _ _ _ _ _ _ _ _ _ _ _ Hfig) as [Hold|Hnew];
    [vm_compute in Hold; discriminate Hold | exact Hnew].
Defined.

(** ** C1: an error in the group loop *)

(** [_process_single_file] on a table that was read, for a descriptor
    with its three keys set to something truthy. *)
Lemma process_single_file_complete (E : Env) (file_path : Path) (config : Config)
    (df : DataFrame) (target_cols groupby_input : names) (chart_type : string)
    (s : State) :
  read_csv E file_path = Ok df ->
  KEY_COLUMNS config = Some target_cols ->
  KEY_GROUPBY config = Some groupby_input ->
  KEY_CHART_TYPE config = Some chart_type ->
  truthy_names target_cols = true ->
  truthy_names groupby_input = true ->
  truthy chart_type = true ->
  _process_single_file E file_path config s
  = match handle_columns (name file_path) config target_cols df
            (log_append s [(INFO, Processing (name file_path))]) with
    | (Ok (_, None), s') => (Ok tt, s')
    | (Ok (df, Some y_label), s') =>
        handle_groupby E file_path df groupby_input chart_type y_label s'
    | (Raise e, s') => (Raise e, s')
    end.
Proof.
  intros Hread Hcols Hgroup Hkind Ht Hg Hk.
  unfold _process_single_file, bind, try_except, lift, logger, ret.
  rewrite Hread, Hcols, Hgroup, Hkind, Ht, Hg, Hk; simpl.
  by destruct (handle_columns _ _ _ _ _) as [[[df' [y_label|]]|e] s'].
Qed.

(** C1, as stated, fails.  In [Ex.ledger] the year 2023 sums to infinity
    and the data label of that point raises; the month column renders
    well (the infinite row has no month).  With the group columns Year
    then Month, the error of Year is caught for the whole file: the Month
    chart of the ledger is never made, though it is made when Month comes
    first; the other file of the batch is still processed. *)
Lemma group_error_skips_the_remaining_group_columns :
  let year_first :=
    (_process_config_entry Ex.ledgers (Ex.by_year_and_month ["Year"; "Month"])
       __init__).2 in
  let month_first :=
    (_process_config_entry Ex.ledgers (Ex.by_year_and_month ["Month"; "Year"])
       __init__).2 in
  In (ERROR, Failed_to_process Ex.ledger_csv OverflowError) (log year_first) /\
  files year_first !! ["data"; "ledger_Month_line.png"] = None /\
  files month_first !! ["data"; "ledger_Month_line.png"] <> None /\
  files year_first !! ["data"; "clean_Year_line.png"] <> None /\
  files year_first !! ["data"; "clean_Month_line.png"] <> None.
Proof.
  split; [vm_compute; tauto|]. split; [by vm_compute|].
  split; [by vm_compute|]. split; by vm_compute.
Qed.

(** ** C7: where the artifacts go, and running again *)

Lemma stateless_ret {A} (a : A) : stateless (ret a).
Proof. exists (Ok a), ∅. intros s. simpl. by rewrite (left_id_L ∅ (∪)). Qed.

Lemma stateless_raise {A} (e : exn) : stateless (raise (A:=A) e).
Proof. exists (Raise e), ∅. intros s. simpl. by rewrite (left_id_L ∅ (∪)). Qed.

Lemma stateless_lift {A} (o : Outcome A) : stateless (lift o).
Proof. exists o, ∅. intros s. simpl. by rewrite (left_id_L ∅ (∪)). Qed.

Lemma stateless_logger (lvl : Level) (msg : Message) : stateless (logger lvl msg).
Proof. exists (Ok tt), ∅. intros s. simpl. by rewrite (left_id_L ∅ (∪)). Qed.

Lemma stateless_plt_subplots : stateless plt_subplots.
Proof. exists (Ok blank), ∅. intros s. simpl. by rewrite (left_id_L ∅ (∪)). Qed.

Lemma stateless_plt_close : stateless plt_close.
Proof. exists (Ok tt), ∅. intros s. simpl. by rewrite (left_id_L ∅ (∪)). Qed.

Lemma stateless_getitem_or_raise (df : DataFrame) (c : string) :
  stateless (getitem_or_raise df c).
Proof.
  unfold getitem_or_raise.
  destruct (getitem df c); [apply stateless_ret | apply stateless_raise].
Qed.

Lemma stateless_savefig (E : Env) (fig : Figure) (output_path : Path) :
  stateless (savefig E fig output_path).
Proof.
  unfold savefig. destruct (savefig_error E output_path) as [e|].
  - exists (Raise e), ∅. intros s. simpl. by rewrite (left_id_L ∅ (∪)).
  - exists (Ok tt), {[output_path := fig]}. intros s. simpl.
    by rewrite insert_union_singleton_l.
Qed.

Lemma stateless_bind {A B} (m : M A) (k : A -> M B) :
  stateless m -> (forall a, stateless (k a)) -> stateless (bind m k).
Proof.
  intros (r & w & Hm) Hk. destruct r as [a|e].
  - destruct (Hk a) as (r' & w' & Hka).
    exists r', (w' ∪ w). intros s. unfold bind.
    destruct (Hm s) as (Hr & Hw & Hc).
    destruct (m s) as [r0 s0]; simpl in *; subst r0.
    destruct (Hka s0) as (Hr' & Hw' & Hc').
    by rewrite Hr', Hw', Hc', Hw, Hc, (assoc_L (∪)).
  - exists (Raise e), w. intros s. unfold bind.
    destruct (Hm s) as (Hr & Hw & Hc).
    by destruct (m s) as [r0 s0]; simpl in *; subst r0.
Qed.

Lemma stateless_try_except {A} (body : M A) (cls : exn -> bool) (handler : exn -> M A) :
  stateless body -> (forall e, stateless (handler e)) ->
  stateless (try_except body cls handler).
Proof.
  intros (r & w & Hm) Hh. destruct r as [a|e]; [|destruct (cls e) eqn:Hcls].
  - exists (Ok a), w. intros s. unfold try_except.
    destruct (Hm s) as (Hr & Hw & Hc).
    by destruct (body s) as [r0 s0]; simpl in *; subst r0.
  - destruct (Hh e) as (r' & w' & Hhe).
    exists r', (w' ∪ w). intros s. unfold try_except.
    destruct (Hm s) as (Hr & Hw & Hc).
    destruct (body s) as [r0 s0]; simpl in *; subst r0. rewrite Hcls.
    destruct (Hhe s0) as (Hr' & Hw' & Hc').
    by rewrite Hr', Hw', Hc', Hw, Hc, (assoc_L (∪)).
  - exists (Raise e), w. intros s. unfold try_except.
    destruct (Hm s) as (Hr & Hw & Hc).
    destruct (body s) as [r0 s0]; simpl in *; subst r0. by rewrite Hcls.
Qed.

Lemma stateless_try_finally {A} (body : M A) (cleanup : M unit) :
  stateless body -> stateless cleanup -> stateless (try_finally body cleanup).
Proof.
  intros (r & w & Hm) (rc & wc & Hcl).
  exists (match rc with Ok _ => r | Raise e => Raise e end), (wc ∪ w).
  intros s. unfold try_finally.
  destruct (Hm s) as (Hr & Hw & Hc).
  destruct (body s) as [r0 s0]; simpl in *; subst r0.
  destruct (Hcl s0) as (Hr' & Hw' & Hc').
  destruct (cleanup s0) as [rc0 s1]; simpl in *; subst rc0.
  destruct rc as [[]|e]; simpl; by rewrite Hw', Hc', Hw, Hc, (assoc_L (∪)).
Qed.

Lemma stateless_for_each {A} (l : list A) (body : A -> M unit) :
  (forall x, stateless (body x)) -> stateless (for_each l body).
Proof.
  intros Hbody. induction l as [|x l IH]; simpl.
  - apply stateless_ret.
  - apply stateless_bind; [apply Hbody | by intros _].
Qed.

Ltac stateless_step :=
  first
    [ apply stateless_ret | apply stateless_raise | apply stateless_lift
    | apply stateless_logger | apply stateless_plt_subplots | apply stateless_plt_close
    | apply stateless_getitem_or_raise | apply stateless_savefig
    | apply stateless_bind; [|intros ?]
    | apply stateless_try_except; [|intros ?]
    | apply stateless_try_finally
    | apply stateless_for_each; intros ?
    | match goal with
      | |- stateless (if ?b then _ else _) => destruct b
      | |- stateless (match ?x with _ => _ end) => destruct x
      end ].

Lemma stateless_generate_chart (E : Env) (df : DataFrame) (x_col y_col chart_type : string)
    (output_dir : Path) (base_filename y_label : string) :
  stateless (_generate_chart E df x_col y_col chart_type output_dir base_filename y_label).
Proof. unfold _generate_chart. repeat stateless_step. Qed.


Lemma stateless_handle_groupby (E : Env) (file_path : Path) (df : DataFrame)
    (groupby_input : names) (chart_type y_label : string) :
  stateless (handle_groupby E file_path df groupby_input chart_type y_label).
Proof.
  unfold handle_groupby. apply stateless_for_each. intros group_col.
  destruct (negb (has_column group_col df)); [apply stateless_logger|].
  apply stateless_bind; [apply stateless_lift|].
  intros grouped_df. apply stateless_generate_chart.
Qed.




(** [test_process_end_to_end]: the chart of the test lands at
    [data/test_financials_Year_bar.png], and a second run leaves the same
    files. *)
Example end_to_end :
  let run := load_config Ex.disk "test_config.json" ;;; process_all Ex.disk in
  (run __init__).1 = Ok tt /\
  map fst (map_to_list (files (run __init__).2))
  = [["data"; "test_financials_Year_bar.png"]] /\
  map_to_list (files (run (run __init__).2).2) = map_to_list (files (run __init__).2).
Proof. split; [|split]; by vm_compute. Qed.

(** ** C2: grouped sums *)

(** *** The order of the keys *)

Lemma Qltb_lt (a b : Q) : negb (Qle_bool b a) = true <-> (a < b)%Q.
Proof.
  rewrite negb_true_iff, <- not_true_iff_false, Qle_bool_iff.
  split; [apply Qnot_le_lt | apply Qlt_not_le].
Qed.

Lemma Qltb_ge (a b : Q) : negb (Qle_bool b a) = false <-> (b <= a)%Q.
Proof. by rewrite negb_false_iff, Qle_bool_iff. Qed.

Lemma Qeqb_neq (a b : Q) : Qeq_bool a b = false <-> ~ (a == b)%Q.
Proof. by rewrite <- not_true_iff_false, Qeq_bool_iff. Qed.

Ltac num_order :=
  intros;
  repeat match goal with x : num |- _ => destruct x end;
  simpl in *; try done;
  rewrite ?Qltb_lt, ?Qltb_ge, ?Qeq_bool_iff, ?Qeqb_neq in *;
  try lra.


Lemma eqb_refl (a : num) : isnan a = false -> Num.eqb a a = true.
Proof. num_order. Qed.






Lemma ltb_eqb (a b c : num) :
  Num.ltb a b = true -> Num.eqb b c = true -> Num.ltb a c = true.
Proof. num_order. Qed.


(** *** One row into the sorted accumulator *)






(** *** The accumulator is the grouping of the rows seen so far *)







(** [test_process_end_to_end]: the series that the bar chart of the test
    shows. *)
Example end_to_end_series :
  exists fig,
    files (_process_single_file Ex.disk Ex.financials_csv Ex.income_by_year __init__).2
      !! ["data"; "test_financials_Year_bar.png"] = Some fig /\
    points fig = [(Fin 2023, Fin 300); (Fin 2024, Fin 400)] /\
    texts fig = [(Fin 2023, Fin 300, "300"); (Fin 2024, Fin 400, "400")].
Proof. eexists. split; [by vm_compute | done]. Qed.

(** * Further properties of the pipeline *)

(** ** [process_all] as a whole *)

(** The loop of [process_all] for a given [config_data]. *)
Lemma process_all_unfold (E : Env) (s : State) :
  process_all E s
  = (if bool_decide (config_data s = []) then logger WARNING No_configuration_data_loaded
     else
       for_each (enumerate (config_data s)) (fun '(i, config) =>
         logger INFO (Processing_Config_Set (i + 1)) ;;;
         _process_config_entry E config)) s.
Proof. done. Qed.

(** ** [load_config], case by case *)

Lemma load_config_cases (E : Env) (config_path : string) (s : State) :
  load_config E config_path s
  = match config_file E config_path with
    | NoFile => (Raise FileNotFoundError, s)
    | Unreadable e =>
        (Raise (if is_JSONDecodeError e
                then ValueError ("Error: Failed to decode JSON from " ++ config_path ++ ".")
                else e), s)
    | NotJson =>
        (Raise (ValueError ("Error: Failed to decode JSON from " ++ config_path ++ ".")), s)
    | Json JScalar =>
        (Raise (ValueError "Config file must contain a list of configurations."), s)
    | Json (JList []) =>
        (Raise (ValueError ("Warning: No config data found in " ++ config_path ++ ".")), s)
    | Json (JList (c :: l)) =>
        (Ok tt, log_append (with_config_data s (c :: l))
                  [(INFO, Loaded (length (c :: l)) config_path)])
    | Json (JDict d) =>
        (Ok tt, log_append (with_config_data s [d]) [(INFO, Loaded 1 config_path)])
    end.
Proof.
  unfold load_config, json_load, try_except, bind, ret, raise.
  by destruct (config_file E config_path) as [|[]| |[[|c l]|d|]].
Qed.

(** X3: a successful [load_config] replaces the configuration.  On a
    non-empty list the new [config_data] is that list, on a single object
    the one-element list of it; what was loaded before is gone, the files
    and the open figures are untouched, and one line is logged with the
    number of descriptors. *)
Theorem load_config_replaces_config (E : Env) (config_path : string) (s : State) :
  bad_source (config_file E config_path) = false ->
  exists config,
    config <> [] /\
    (config_file E config_path = Json (JList config) \/
     exists d, config_file E config_path = Json (JDict d) /\ config = [d]) /\
    load_config E config_path s
    = (Ok tt, log_append (with_config_data s config)
                [(INFO, Loaded (length config) config_path)]).
Proof.
  rewrite load_config_cases.
  destruct (config_file E config_path) as [|e| |[[|c l]|d|]]; simpl; try done; intros _.
  - exists (c :: l). split; [done|]. split; [by left | done].
  - exists [d]. split; [done|]. split; [right; by exists d | done].
Qed.

Lemma load_config_replaces_config_witness :
  load_config Ex.disk "test_config.json"
    (with_config_data __init__ [Ex.unlabelled; Ex.unlabelled])
  = (Ok tt, log_append (with_config_data __init__ [Ex.income_by_year])
              [(INFO, Loaded 1 "test_config.json")]).
Proof.
  destruct (load_config_replaces_config Ex.disk "test_config.json"
              (with_config_data __init__ [Ex.unlabelled; Ex.unlabelled]))
    as (config & _ & [Hlist|(d & Hdict & _)] & Hrun); [reflexivity | |].
  - injection Hlist as <-. exact Hrun.
  - discriminate Hdict.
Defined.

(** ** main.py *)

(** ** The loop over the files *)

Lemma for_each_cons {A} (x : A) (l : list A) (body : A -> M unit) (s : State) :
  for_each (x :: l) body s
  = match body x s with
    | (Ok _, s') => for_each l body s'
    | (Raise e, s') => (Raise e, s')
    end.
Proof. done. Qed.

(** X5: directories matched by the pattern are skipped.  The loop over
    the matches does what it would do on the matches that are no
    directories: a directory is never read, logged or counted as a
    failure. *)
Theorem directories_are_skipped (E : Env) (config : Config) (files : list Path)
    (s : State) :
  for_each files (file_loop_body E config) s
  = for_each (List.filter (fun file_path => negb (is_dir E file_path)) files)
      (file_loop_body E config) s.
Proof.
  revert s. induction files as [|file_path files IH]; intros s; [done|].
  cbn [List.filter]. destruct (is_dir E file_path) eqn:Hdir; cbn [negb];
    rewrite !for_each_cons.
  - unfold file_loop_body at 1. rewrite Hdir. simpl. apply IH.
  - destruct (file_loop_body E config file_path s) as [[[]|e] s']; [apply IH | done].
Qed.

Lemma process_single_file_unreadable (E : Env) (file_path : Path) (config : Config)
    (e : exn) (s : State) :
  read_csv E file_path = Raise e ->
  _process_single_file E file_path config s
  = (Ok tt, log_append s [(INFO, Processing (name file_path));
                          (ERROR, Failed_to_read_CSV file_path e)]).
Proof.
  intros Hread. unfold _process_single_file, bind, try_except, lift, logger, ret.
  rewrite Hread. simpl. by rewrite log_append_app.
Qed.

Lemma process_single_file_incomplete (E : Env) (file_path : Path) (config : Config)
    (df : DataFrame) (s : State) :
  read_csv E file_path = Ok df ->
  complete config = false ->
  _process_single_file E file_path config s
  = (Ok tt, log_append s [(INFO, Processing (name file_path));
                          (WARNING, Missing_required_config_keys (name file_path))]).
Proof.
  intros Hread Hincomplete.
  unfold _process_single_file, bind, try_except, lift, logger, ret.
  rewrite Hread. simpl. unfold complete in Hincomplete.
  destruct (KEY_COLUMNS config) as [target_cols|],
           (KEY_GROUPBY config) as [groupby_input|],
           (KEY_CHART_TYPE config) as [chart_type|];
    rewrite ?log_append_app; try done.
  destruct (truthy_names target_cols), (truthy_names groupby_input),
           (truthy chart_type); simpl in *; by rewrite ?log_append_app.
Qed.

(** A file on which [_process_single_file] only logs lets the loop go on. *)
Lemma file_loop_continues (E : Env) (config : Config) (file_path : Path)
    (records : list (Level * Message)) :
  is_dir E file_path = false ->
  (forall s, _process_single_file E file_path config s = (Ok tt, log_append s records)) ->
  forall before after s,
    for_each (before ++ file_path :: after) (file_loop_body E config) s
    = for_each after (file_loop_body E config)
        (log_append (for_each before (file_loop_body E config) s).2 records).
Proof.
  intros Hdir Hfile before after s.
  pose proof (for_each_total before (file_loop_body E config)
                (file_loop_body_total E config) s) as Hbefore.
  destruct (for_each before (file_loop_body E config) s) as [r s1] eqn:Hrun.
  simpl in Hbefore. subst r.
  rewrite (for_each_app _ _ _ _ _ Hrun). simpl.
  unfold bind at 1, file_loop_body at 1. rewrite Hdir.
  unfold try_except. by rewrite Hfile.
Qed.

(** X6: a file that cannot be parsed is skipped.  When [read_csv] raises,
    [_process_single_file] logs the error and returns normally without
    looking at the descriptor: nothing is written, no figure is opened, and
    the loop goes on with the files after it. *)
Theorem unreadable_file_is_skipped (E : Env) (file_path : Path) (config : Config)
    (e : exn) :
  read_csv E file_path = Raise e ->
  is_dir E file_path = false ->
  (forall s,
     _process_single_file E file_path config s
     = (Ok tt, log_append s [(INFO, Processing (name file_path));
                             (ERROR, Failed_to_read_CSV file_path e)])) /\
  (forall before after s,
     for_each (before ++ file_path :: after) (file_loop_body E config) s
     = for_each after (file_loop_body E config)
         (log_append (for_each before (file_loop_body E config) s).2
            [(INFO, Processing (name file_path));
             (ERROR, Failed_to_read_CSV file_path e)])).
Proof.
  intros Hread Hdir.
  assert (forall s,
     _process_single_file E file_path config s
     = (Ok tt, log_append s [(INFO, Processing (name file_path));
                             (ERROR, Failed_to_read_CSV file_path e)])) as Hfile.
  { intros s. by apply process_single_file_unreadable. }
  split; [exact Hfile | by apply file_loop_continues].
Qed.

Lemma unreadable_file_is_skipped_witness :
  for_each [["data"; "notes.txt"]; Ex.financials_csv]
    (file_loop_body Ex.disk Ex.income_by_year) __init__
  = for_each [Ex.financials_csv] (file_loop_body Ex.disk Ex.income_by_year)
      (log_append __init__
         [(INFO, Processing "notes.txt");
          (ERROR, Failed_to_read_CSV ["data"; "notes.txt"] ParserError)]).
Proof.
  destruct (unreadable_file_is_skipped Ex.disk ["data"; "notes.txt"] Ex.income_by_year
              ParserError) as [_ Hloop]; [reflexivity | reflexivity |].
  exact (Hloop [] [Ex.financials_csv] __init__).
Defined.

(** X7: an incomplete descriptor is skipped per file.  When [columns],
    [groupby] or [chart_type] is absent or empty (empty string, empty
    list), a file that parses is read and then left alone with one
    warning: no column is added, nothing is aggregated or rendered, and
    the loop goes on. *)
Theorem incomplete_descriptor_is_skipped (E : Env) (file_path : Path) (config : Config)
    (df : DataFrame) :
  read_csv E file_path = Ok df ->
  is_dir E file_path = false ->
  complete config = false ->
  (forall s,
     _process_single_file E file_path config s
     = (Ok tt, log_append s [(INFO, Processing (name file_path));
                             (WARNING, Missing_required_config_keys (name file_path))])) /\
  (forall before after s,
     for_each (before ++ file_path :: after) (file_loop_body E config) s
     = for_each after (file_loop_body E config)
         (log_append (for_each before (file_loop_body E config) s).2
            [(INFO, Processing (name file_path));
             (WARNING, Missing_required_config_keys (name file_path))])).
Proof.
  intros Hread Hdir Hincomplete.
  assert (forall s,
     _process_single_file E file_path config s
     = (Ok tt, log_append s [(INFO, Processing (name file_path));
                             (WARNING, Missing_required_config_keys (name file_path))]))
    as Hfile.
  { intros s. by eapply process_single_file_incomplete. }
  split; [exact Hfile | by apply file_loop_continues].
Qed.

Lemma incomplete_descriptor_is_skipped_witness :
  _process_single_file Ex.disk Ex.financials_csv
    {| KEY_DIRECTORY := Some "data/*.csv"; KEY_COLUMNS := Some (Single "Amount");
       KEY_GROUPBY := Some (Multiple []); KEY_CHART_TYPE := Some "bar";
       KEY_CHART_LABEL := None |} __init__
  = (Ok tt, log_append __init__
              [(INFO, Processing "test_financials.csv");
               (WARNING, Missing_required_config_keys "test_financials.csv")]).
Proof.
  destruct (incomplete_descriptor_is_skipped Ex.disk Ex.financials_csv
              {| KEY_DIRECTORY := Some "data/*.csv"; KEY_COLUMNS := Some (Single "Amount");
                 KEY_GROUPBY := Some (Multiple []); KEY_CHART_TYPE := Some "bar";
                 KEY_CHART_LABEL := None |} Ex.financials)
    as [Hfile _]; [reflexivity | reflexivity | reflexivity |].
  exact (Hfile __init__).
Defined.

(** ** The loop over the group columns *)

(** X8: a group column that is no column of the table is skipped with a
    warning, and only that one: the group columns before it have been
    processed and the loop goes on with the ones after it. *)
Theorem absent_group_column_is_skipped (E : Env) (file_path : Path) (df : DataFrame)
    (group_col : string) (chart_type y_label : string) :
  has_column group_col df = false ->
  (forall s,
     handle_groupby E file_path df (Single group_col) chart_type y_label s
     = (Ok tt, log_append s
                 [(WARNING, Group_column_not_found group_col (name file_path))])) /\
  (forall before after s s1,
     handle_groupby E file_path df (Multiple before) chart_type y_label s = (Ok tt, s1) ->
     handle_groupby E file_path df (Multiple (before ++ group_col :: after))
       chart_type y_label s
     = handle_groupby E file_path df (Multiple after) chart_type y_label
         (log_append s1 [(WARNING, Group_column_not_found group_col (name file_path))])).
Proof.
  intros Habsent. split.
  - intros s. unfold handle_groupby. simpl. by rewrite Habsent.
  - intros before after s s1 Hbefore. unfold handle_groupby in *. simpl in *.
    rewrite (for_each_app _ _ _ _ _ Hbefore). simpl.
    unfold bind at 1. by rewrite Habsent.
Qed.

Lemma absent_group_column_is_skipped_witness :
  handle_groupby Ex.disk Ex.financials_csv
    (setitem Ex.financials plot_col_name [Fin 100; Fin 200; Fin 150; Fin 250])
    (Multiple ["Quarter"; "Year"]) "bar" "Total Amount" __init__
  = handle_groupby Ex.disk Ex.financials_csv
      (setitem Ex.financials plot_col_name [Fin 100; Fin 200; Fin 150; Fin 250])
      (Multiple ["Year"]) "bar" "Total Amount"
      (log_append __init__
         [(WARNING, Group_column_not_found "Quarter" "test_financials.csv")]).
Proof.
  destruct (absent_group_column_is_skipped Ex.disk Ex.financials_csv
              (setitem Ex.financials plot_col_name [Fin 100; Fin 200; Fin 150; Fin 250])
              "Quarter" "bar" "Total Amount") as [_ Hloop]; [reflexivity|].
  exact (Hloop [] ["Year"] __init__ __init__ eq_refl).
Defined.

(** ** A render call *)



(** X10: the figure and the files of a render call, by outcome.  A call
    that returns has closed the figure it opened; a call that raises has
    written no file and logged nothing, and the figure it opened is still
    open. *)
Theorem render_call_outcomes (E : Env) (df : DataFrame) (x_col y_col chart_type : string)
    (output_dir : Path) (base_filename y_label : string) (s : State) :
  let r :=
    _generate_chart E df x_col y_col chart_type output_dir base_filename y_label s in
  (r.1 = Ok tt -> open_figures r.2 = open_figures s) /\
  (forall e, r.1 = Raise e -> r.2 = with_open_figures s (S (open_figures s))).
Proof.
  intros r. subst r.
  destruct (getitem df x_col) as [xs|] eqn:Hx; cycle 1.
  { unfold _generate_chart, bind, getitem_or_raise. rewrite Hx. by simpl. }
  destruct (getitem df y_col) as [ys|] eqn:Hy; cycle 1.
  { unfold _generate_chart, bind, getitem_or_raise. rewrite Hx, Hy. by simpl. }
  destruct (supported chart_type) eqn:Hk.
  - rewrite (generate_chart_supported _ _ _ _ _ _ _ _ xs ys) by done.
    destruct (add_data_labels _ _); [|done].
    by destruct (savefig_error _ _).
  - by rewrite (generate_chart_unsupported _ _ _ _ _ _ _ _ xs ys).
Qed.

Lemma render_call_outcomes_witness :
  open_figures
    (_generate_chart Ex.disk
       [("Year", [Fin 2023; Fin 2024]); (plot_col_name, [Fin 300; Fin 400])]
       "Year" plot_col_name "bar" ["data"] "test_financials" "Total Amount" __init__).2
  = 0%nat /\
  (_generate_chart Ex.disk [("Year", [Fin 2023]); (plot_col_name, [NaN])]
     "Year" plot_col_name "line" ["data"] "ledger" "Amount" __init__).2
  = with_open_figures __init__ 1.
Proof.
  split.
  - apply (render_call_outcomes Ex.disk
             [("Year", [Fin 2023; Fin 2024]); (plot_col_name, [Fin 300; Fin 400])]
             "Year" plot_col_name "bar" ["data"] "test_financials" "Total Amount"
             __init__).
    reflexivity.
  - apply (proj2 (render_call_outcomes Ex.disk
                    [("Year", [Fin 2023]); (plot_col_name, [NaN])]
                    "Year" plot_col_name "line" ["data"] "ledger" "Amount" __init__)
             (ValueError "cannot convert float NaN to integer")).
    reflexivity.
Defined.

(** The data labels can be made exactly when every value is a number. *)
Lemma add_data_labels_ok_iff (fig : Figure) (pts : list (num * num)) :
  (exists drawn, add_data_labels fig pts = Ok drawn)
  <-> Forall (fun pt => is_fin pt.2 = true) pts.
Proof.
  revert fig. induction pts as [|[x y] pts IH]; intros fig; simpl.
  - split; [constructor | by eexists].
  - destruct y as [q| | |]; simpl.
    + rewrite IH. split; [by constructor | by intros [_ ?]%Forall_cons].
    + split; [by intros [? ?] | by intros [? _]%Forall_cons].
    + split; [by intros [? ?] | by intros [? _]%Forall_cons].
    + split; [by intros [? ?] | by intros [? _]%Forall_cons].
Qed.

Lemma add_data_labels_exceptions (fig : Figure) (pts : list (num * num)) (e : exn) :
  add_data_labels fig pts = Raise e ->
  e = OverflowError \/ e = ValueError "cannot convert float NaN to integer".
Proof.
  revert fig. induction pts as [|[x y] pts IH]; intros fig; simpl; [done|].
  destruct y as [q| | |]; simpl;
    [apply IH | intros [= <-]; by left .. | intros [= <-]; by right].
Qed.

(** X11: when a supported chart can be drawn.  A bar or line render call
    on a frame that has its two columns returns normally exactly when
    every sum of the series is a finite number; otherwise it raises
    [OverflowError] (an infinite sum) or [ValueError] (a NaN), whichever
    the first such point gives. *)
Theorem render_succeeds_iff_sums_are_finite (E : Env) (df : DataFrame)
    (x_col y_col chart_type : string) (output_dir : Path)
    (base_filename y_label : string) (xs ys : list num) (s : State) :
  getitem df x_col = Some xs ->
  getitem df y_col = Some ys ->
  supported chart_type = true ->
  let r :=
    _generate_chart E df x_col y_col chart_type output_dir base_filename y_label s in
  (r.1 = Ok tt <-> Forall (fun pt => is_fin pt.2 = true) (combine xs ys)) /\
  (forall e, r.1 = Raise e ->
     e = OverflowError \/ e = ValueError "cannot convert float NaN to integer").
Proof.
  intros Hx Hy Hk r. subst r.
  rewrite (generate_chart_supported _ _ _ _ _ _ _ _ xs ys) by done.
  pose proof (add_data_labels_ok_iff (ax_draw chart_type blank xs ys y_label)
                (combine xs ys)) as Hiff.
  destruct (add_data_labels _ _) as [drawn|e0] eqn:Hdrawn.
  - split.
    + split; [intros _; apply Hiff; by eexists | by destruct (savefig_error _ _)].
    + intros e. by destruct (savefig_error _ _).
  - split.
    + split; [done | by intros [? ?]%Hiff].
    + intros e [= <-]. by eapply add_data_labels_exceptions.
Qed.

Lemma render_succeeds_iff_sums_are_finite_witness :
  (_generate_chart Ex.disk
     [("Year", [Fin 2023; Fin 2024]); (plot_col_name, [Fin 300; Fin 400])]
     "Year" plot_col_name "bar" ["data"] "test_financials" "Total Amount" __init__).1
  = Ok tt.
Proof.
  apply (render_succeeds_iff_sums_are_finite Ex.disk
           [("Year", [Fin 2023; Fin 2024]); (plot_col_name, [Fin 300; Fin 400])]
           "Year" plot_col_name "bar" ["data"] "test_financials" "Total Amount"
           [Fin 2023; Fin 2024] [Fin 300; Fin 400] __init__);
    [reflexivity | reflexivity | reflexivity |].
  repeat constructor.
Defined.

(** ** Tables without infinite cells *)

Lemma is_fin_no_inf (x : num) : is_fin x = true -> no_inf x = true.
Proof. by destruct x. Qed.

Lemma nan_add_fin (acc x : num) :
  is_fin acc = true -> no_inf x = true -> is_fin (nan_add acc x) = true.
Proof. by destruct acc, x. Qed.

Lemma nansum_fin (l : list num) :
  Forall (fun x => no_inf x = true) l -> is_fin (nansum l) = true.
Proof.
  unfold nansum. assert (is_fin (Fin 0) = true) as Hacc by done.
  revert Hacc. generalize (Fin 0) as acc.
  induction l as [|x l IH]; intros acc Hacc Hl; simpl; [done|].
  apply Forall_cons in Hl as [Hx Hl]. apply IH; [by apply nan_add_fin | done].
Qed.

Lemma nth_no_inf (i : nat) (col : list num) :
  Forall (fun x => no_inf x = true) col -> no_inf (nth i col NaN) = true.
Proof.
  intros Hcol. rewrite nth_lookup. destruct (col !! i) as [x|] eqn:Hi; simpl; [|done].
  by eapply Forall_lookup_1 in Hcol.
Qed.

Lemma sum_axis1_fin (n : nat) (cols : list (list num)) :
  Forall (Forall (fun x => no_inf x = true)) cols ->
  Forall (fun x => is_fin x = true) (sum_axis1 n cols).
Proof.
  intros Hcols. unfold sum_axis1.
  apply Forall_forall. intros x Hx.
  change (x ∈ (fun i => nansum (map (fun col => nth i col NaN) cols)) <$> seq 0 n) in Hx.
  apply list_elem_of_fmap in Hx as (i & -> & _).
  apply nansum_fin. induction Hcols as [|col cols Hcol _ IH]; simpl; [constructor|].
  constructor; [by apply nth_no_inf | exact IH].
Qed.

Lemma getitem_clean (df : DataFrame) (c : string) (col : list num) :
  clean df -> getitem df c = Some col -> Forall (fun x => no_inf x = true) col.
Proof.
  unfold clean. induction df as [|[c' col'] df IH]; simpl; [done|].
  intros [Hcol Hdf]%Forall_cons. destruct (String.eqb c c'); [|by apply IH].
  by intros [= <-].
Qed.

Lemma setitem_clean (df : DataFrame) (c : string) (col : list num) :
  clean df -> Forall (fun x => no_inf x = true) col -> clean (setitem df c col).
Proof.
  unfold clean. intros Hdf Hcol. induction df as [|[c' col'] df IH]; simpl.
  - by repeat constructor.
  - apply Forall_cons in Hdf as [Hcol' Hdf].
    destruct (String.eqb c c'); constructor; try done. by apply IH.
Qed.

Lemma select_clean (df : DataFrame) (cols : list string) (cs : list (list num)) :
  clean df -> select df cols = Ok cs -> Forall (Forall (fun x => no_inf x = true)) cs.
Proof.
  intros Hdf. revert cs. induction cols as [|c cols IH]; intros cs; simpl.
  - intros [= <-]. constructor.
  - destruct (getitem df c) as [col|] eqn:Hc; [|done].
    destruct (select df cols) as [cs'|e]; [|done].
    intros [= <-]. constructor; [by eapply getitem_clean | by apply IH].
Qed.

(** The column step on a clean table: it returns, changes neither the
    files nor the figures, and hands on a clean table that has the
    synthetic column. *)
Lemma handle_columns_clean (file_name : string) (config : Config) (target_cols : names)
    (df : DataFrame) (s : State) :
  clean df ->
  exists df' y_label s',
    handle_columns file_name config target_cols df s = (Ok (df', y_label), s') /\
    open_figures s' = open_figures s /\
    (is_Some y_label -> clean df' /\ has_column plot_col_name df' = true).
Proof.
  intros Hdf. unfold handle_columns. destruct target_cols as [c|cs].
  - destruct (has_column c df) eqn:Hc; simpl.
    + apply has_column_getitem in Hc as [col Hcol].
      unfold bind, getitem_or_raise. rewrite Hcol. simpl.
      do 3 eexists. split; [done|]. split; [done|]. intros _. split.
      * apply setitem_clean; [done | by eapply getitem_clean].
      * apply has_column_getitem. rewrite getitem_setitem_eq. by eexists.
    + do 3 eexists. split; [done|]. split; [done|]. by intros [? ?].
  - case_bool_decide.
    + do 3 eexists. split; [done|]. split; [done|]. by intros [? ?].
    + destruct (select_present df cs) as (cols & Hsel & _).
      unfold bind, lift. rewrite Hsel. simpl.
      do 3 eexists. split; [done|]. split; [done|]. intros _. split.
      * apply setitem_clean; [done|].
        eapply Forall_impl; [apply sum_axis1_fin; by eapply select_clean|].
        intros x. apply is_fin_no_inf.
      * apply has_column_getitem. rewrite getitem_setitem_eq. by eexists.
Qed.

Lemma upsert_fin (k v : num) (acc : list (num * num)) :
  no_inf v = true ->
  Forall (fun p => is_fin p.2 = true) acc ->
  Forall (fun p => is_fin p.2 = true) (upsert k v acc).
Proof.
  intros Hv. induction acc as [|[k' s] acc IH]; simpl; intros Hacc.
  - constructor; [by apply nan_add_fin | constructor].
  - apply Forall_cons in Hacc as [Hs Hacc]. simpl in Hs.
    destruct (Num.ltb k k'); [|destruct (Num.eqb k k')].
    + constructor; [by apply nan_add_fin | by constructor].
    + constructor; [by apply nan_add_fin | done].
    + constructor; [done | by apply IH].
Qed.

Lemma group_sums_fin (keys vals : list num) :
  Forall (fun x => no_inf x = true) vals ->
  Forall (fun x => is_fin x = true) (map snd (group_sums keys vals)).
Proof.
  intros Hvals.
  assert (Forall (fun row : num * num => no_inf row.2 = true) (combine keys vals)) as Hrows.
  { revert keys. induction Hvals as [|v vals Hv _ IH]; intros [|k keys]; simpl;
      try constructor; [done | apply IH]. }
  assert (Forall (fun p : num * num => is_fin p.2 = true) (group_sums keys vals)) as Hsums.
  { unfold group_sums.
    assert (Forall (fun p : num * num => is_fin p.2 = true) []) as Hacc by constructor.
    revert Hacc. generalize (@nil (num * num)) as acc.
    induction Hrows as [|[k v] rows Hv _ IH]; intros acc Hacc; simpl; [done|].
    apply IH. unfold group_step. simpl. destruct (isnan k); [done|].
    by apply upsert_fin. }
  induction Hsums; simpl; by constructor.
Qed.

Lemma groupby_sum_clean (df : DataFrame) (g : string) :
  clean df ->
  has_column g df = true ->
  has_column plot_col_name df = true ->
  exists grouped xs ys,
    groupby_sum df g plot_col_name = Ok grouped /\
    getitem grouped g = Some xs /\
    getitem grouped plot_col_name = Some ys /\
    Forall (fun x => is_fin x = true) ys.
Proof.
  intros Hdf [keys Hg]%has_column_getitem [vals Hm]%has_column_getitem.
  pose proof (group_sums_fin keys vals (getitem_clean _ _ _ Hdf Hm)) as Hfin.
  unfold groupby_sum. rewrite Hg, Hm.
  unfold has_column; simpl. case_bool_decide as Hin.
  - apply list_elem_of_singleton in Hin as ->.
    do 3 eexists. split; [done|]. cbn [getitem]. rewrite String.eqb_refl.
    by repeat split.
  - do 3 eexists. split; [done|]. cbn [getitem]. rewrite !String.eqb_refl.
    destruct (String.eqb_spec plot_col_name g) as [<-|_]; [|by repeat split].
    exfalso. apply Hin. by apply list_elem_of_singleton.
Qed.

Lemma generate_chart_quiet (E : Env) (df : DataFrame) (x_col y_col chart_type : string)
    (output_dir : Path) (base_filename y_label : string) (xs ys : list num) :
  getitem df x_col = Some xs ->
  getitem df y_col = Some ys ->
  Forall (fun x => is_fin x = true) ys ->
  quiet (_generate_chart E df x_col y_col chart_type output_dir base_filename y_label).
Proof.
  intros Hx Hy Hys s.
  destruct (supported chart_type) eqn:Hk.
  - rewrite (generate_chart_supported _ _ _ _ _ _ _ _ xs ys) by done.
    assert (Forall (fun pt : num * num => is_fin pt.2 = true) (combine xs ys)) as Hpts.
    { clear Hx Hy. revert xs. induction Hys as [|y ys Hy' _ IH]; intros [|x xs]; simpl;
        try constructor; [done | apply IH]. }
    apply (add_data_labels_ok_iff (ax_draw chart_type blank xs ys y_label)) in Hpts
      as [drawn Hdrawn].
    rewrite Hdrawn. by destruct (savefig_error _ _).
  - by rewrite (generate_chart_unsupported _ _ _ _ _ _ _ _ xs ys).
Qed.

Lemma quiet_for_each {A} (l : list A) (body : A -> M unit) :
  (forall x, quiet (body x)) -> quiet (for_each l body).
Proof.
  intros Hbody. induction l as [|x l IH]; intros s; [done|].
  rewrite for_each_cons. destruct (Hbody x s) as [Hok Hfig].
  destruct (body x s) as [r s']; simpl in *; subst r.
  destruct (IH s') as [Hok' Hfig']. by rewrite Hok', Hfig', Hfig.
Qed.

Lemma handle_groupby_quiet (E : Env) (file_path : Path) (df : DataFrame)
    (groupby_input : names) (chart_type y_label : string) :
  clean df ->
  has_column plot_col_name df = true ->
  quiet (handle_groupby E file_path df groupby_input chart_type y_label).
Proof.
  intros Hdf Hplot. unfold handle_groupby. apply quiet_for_each. intros g s.
  destruct (has_column g df) eqn:Hg; simpl; [|done].
  destruct (groupby_sum_clean df g Hdf Hg Hplot) as (grouped & xs & ys & Hsum & Hx & Hy & Hys).
  unfold bind, lift. rewrite Hsum. by eapply generate_chart_quiet.
Qed.

Lemma process_single_file_quiet (E : Env) (file_path : Path) (config : Config) :
  (forall df, read_csv E file_path = Ok df -> clean df) ->
  quiet (_process_single_file E file_path config).
Proof.
  intros Hclean s.
  destruct (read_csv E file_path) as [df|e] eqn:Hread; cycle 1.
  { by rewrite (process_single_file_unreadable _ _ _ e). }
  specialize (Hclean df eq_refl).
  destruct (complete config) eqn:Hcomplete; cycle 1.
  { by rewrite (process_single_file_incomplete _ _ _ df). }
  unfold complete in Hcomplete.
  destruct (KEY_COLUMNS config) as [target_cols|] eqn:Hcols; [|done].
  destruct (KEY_GROUPBY config) as [groupby_input|] eqn:Hgroup; [|done].
  destruct (KEY_CHART_TYPE config) as [chart_type|] eqn:Hkind; [|done].
  apply andb_true_iff in Hcomplete as [[Ht Hg]%andb_true_iff Hk].
  rewrite (process_single_file_complete _ _ _ df target_cols groupby_input chart_type)
    by done.
  destruct (handle_columns_clean (name file_path) config target_cols df
              (log_append s [(INFO, Processing (name file_path))]) Hclean)
    as (df' & y_label & s' & -> & Hfig & Hnext).
  simpl in Hfig. destruct y_label as [y_label|]; [|done].
  destruct Hnext as [Hdf' Hplot]; [by eexists|].
  destruct (handle_groupby_quiet E file_path df' groupby_input chart_type y_label
              Hdf' Hplot s') as [Hok Hfig'].
  by rewrite Hok, Hfig', Hfig.
Qed.

(** ** The column step *)

(** X13: the column step touches nothing but the synthetic column.
    Whatever the measure, the table handed on has every other column as it
    was read (so every group column of the file is still there), the files
    and figures are untouched, and when the step makes the function return
    the table is exactly the one read. *)
Theorem column_step_keeps_the_other_columns (file_name : string) (config : Config)
    (target_cols : names) (df df' : DataFrame) (y_label : option string) (s s' : State) :
  handle_columns file_name config target_cols df s = (Ok (df', y_label), s') ->
  (forall c, c <> plot_col_name -> getitem df' c = getitem df c) /\
  (forall c, has_column c df = true -> has_column c df' = true) /\
  (is_Some y_label -> has_column plot_col_name df' = true) /\
  (y_label = None -> df' = df) /\
  files s' = files s /\ open_figures s' = open_figures s.
Proof.
  assert (forall col,
    (forall c, c <> plot_col_name ->
       getitem (setitem df plot_col_name col) c = getitem df c) /\
    (forall c, has_column c df = true ->
       has_column c (setitem df plot_col_name col) = true) /\
    has_column plot_col_name (setitem df plot_col_name col) = true) as Hset.
  { intros col. split; [|split].
    - intros c Hc. by apply getitem_setitem_ne.
    - intros c [col' Hc]%has_column_getitem. apply has_column_getitem.
      destruct (decide (c = plot_col_name)) as [->|Hne].
      + rewrite getitem_setitem_eq. by eexists.
      + rewrite getitem_setitem_ne by done. by eexists.
    - apply has_column_getitem. rewrite getitem_setitem_eq. by eexists. }
  unfold handle_columns. destruct target_cols as [c|cs].
  - destruct (negb (has_column c df)); simpl.
    + intros [= <- <- <-]. repeat split; first [done | by intros [? ?]].
    + unfold bind, getitem_or_raise. destruct (getitem df c) as [col|]; [|done].
      simpl. intros [= <- <- <-]. destruct (Hset col) as (H1 & H2 & H3).
      by repeat split.
  - case_bool_decide; simpl.
    + intros [= <- <- <-]. repeat split; first [done | by intros [? ?]].
    + unfold bind, lift. destruct (select df _) as [cols|]; [|done].
      simpl. intros [= <- <- <-].
      destruct (Hset (sum_axis1 (nrows df) cols)) as (H1 & H2 & H3).
      by repeat split.
Qed.

Lemma column_step_keeps_the_other_columns_witness :
  getitem (Ex.multi_col ++ [(plot_col_name, [Fin 55000; Fin 58000])])%list "Year"
  = getitem Ex.multi_col "Year".
Proof.
  apply (column_step_keeps_the_other_columns "multi_col.csv" Ex.salary_and_bonus
           (Multiple ["Salary"; "Bonus"]) Ex.multi_col
           (Ex.multi_col ++ [(plot_col_name, [Fin 55000; Fin 58000])])%list
           (Some "Salary + Bonus") __init__ __init__);
    [reflexivity | discriminate].
Defined.

(** Without a chart label the y label is the measure name, or the names
    of the measure that are columns joined by " + ". *)
Lemma handle_columns_default_label (file_name : string) (config : Config)
    (target_cols : names) (df df' : DataFrame) (y_label : string) (s s1 : State) :
  KEY_CHART_LABEL config = None ->
  handle_columns file_name config target_cols df s = (Ok (df', Some y_label), s1) ->
  y_label
  = match target_cols with
    | Single target_col => target_col
    | Multiple target_cols =>
        String.concat " + " (List.filter (fun c => has_column c df) target_cols)
    end.
Proof.
  intros Hlabel. unfold handle_columns. rewrite Hlabel.
  destruct target_cols as [c|cs].
  - destruct (negb (has_column c df)); [done|].
    unfold bind, getitem_or_raise.
    destruct (getitem df c); simpl; [|done]. by intros [= _ <- _].
  - case_bool_decide; [done|]. unfold bind, lift.
    destruct (select df _); simpl; [|done].
    by intros [= _ <- _].
Qed.

(** X14: the default display label reaches the chart.  When the
    descriptor has no chart label, every figure [_process_single_file]
    saves has the same text as y-axis label and as legend label: the
    measure name for a single measure, and for a sequence the names that
    are columns of the file's table, joined by " + " in their order. *)
Theorem default_label_is_the_measure (E : Env) (file_path : Path) (config : Config)
    (s : State) (path : Path) (fig : Figure) :
  KEY_CHART_LABEL config = None ->
  files (_process_single_file E file_path config s).2 !! path = Some fig ->
  files s !! path = Some fig \/
  (label fig = ylabel fig /\
   exists df target_cols,
     read_csv E file_path = Ok df /\
     KEY_COLUMNS config = Some target_cols /\
     ylabel fig
     = match target_cols with
       | Single target_col => target_col
       | Multiple target_cols =>
           String.concat " + " (List.filter (fun c => has_column c df) target_cols)
       end).
Proof.
  intros Hlabel Hfig.
  destruct (process_single_file_writes E file_path config s path fig Hfig)
    as [Hold|Hnew]; [by left | right].
  destruct Hnew as (df & target_cols & groupby_input & chart_type & s0 & df' & y_label
                    & s1 & Hread & Hcols & _ & _ & Hprep & g & grouped & _ & _ & Hr).
  destruct (rendered_labels _ _ _ _ _ _ _ _ _ Hr) as [Hy Hl].
  split; [by rewrite Hy, Hl|].
  exists df, target_cols. split; [done|]. split; [done|].
  rewrite Hy. by eapply handle_columns_default_label.
Qed.

Lemma default_label_is_the_measure_witness :
  exists fig,
    files (_process_single_file Ex.ledgers Ex.clean_csv (Ex.by_year_and_month ["Year"])
             __init__).2 !! ["data"; "clean_Year_line.png"] = Some fig /\
    label fig = ylabel fig /\
    exists df target_cols,
      read_csv Ex.ledgers Ex.clean_csv = Ok df /\
      KEY_COLUMNS (Ex.by_year_and_month ["Year"]) = Some target_cols /\
      ylabel fig
      = match target_cols with
        | Single target_col => target_col
        | Multiple target_cols =>
            String.concat " + " (List.filter (fun c => has_column c df) target_cols)
        end.
Proof.
  destruct (files (_process_single_file Ex.ledgers Ex.clean_csv
                     (Ex.by_year_and_month ["Year"]) __init__).2
              !! ["data"; "clean_Year_line.png"]) as [fig|] eqn:Hfig;
    [|vm_compute in Hfig; discriminate Hfig].
  exists fig. split; [reflexivity|].
  destruct (default_label_is_the_measure Ex.ledgers Ex.clean_csv
              (Ex.by_year_and_month ["Year"]) __init__ _ fig eq_refl Hfig)
    as [Hold|Hnew]; [vm_compute in Hold; discriminate Hold | exact Hnew].
Defined.

(** X15: what every saved chart carries.  A figure [_process_single_file]
    saves is a bar or a line chart of the kind the descriptor asks for,
    titled "<stem> grouped by <group column>", with the group column as
    x-axis label, the grid, the legend and the integer ticks switched on,
    and one data label per point. *)
Theorem saved_chart_decorations (E : Env) (file_path : Path) (config : Config)
    (s : State) (path : Path) (fig : Figure) :
  files (_process_single_file E file_path config s).2 !! path = Some fig ->
  files s !! path = Some fig \/
  exists groupby_input group_col,
    KEY_GROUPBY config = Some groupby_input /\
    group_col ∈ as_list groupby_input /\
    KEY_CHART_TYPE config = Some (kind fig) /\
    supported (kind fig) = true /\
    title fig = stem file_path ++ " grouped by " ++ group_col /\
    xlabel fig = group_col /\
    grid fig = true /\ legend fig = true /\ integer_ticks fig = true /\
    length (texts fig) = length (points fig).
Proof.
  intros Hfig.
  destruct (process_single_file_writes E file_path config s path fig Hfig)
    as [Hold|Hnew]; [by left | right].
  destruct Hnew as (df & target_cols & groupby_input & chart_type & s0 & df' & y_label
                    & s1 & _ & _ & Hgroup & Hkind & _ & g & grouped & Hg & _ & Hr).
  destruct Hr as (_ & Hk & xs & ys & drawn & _ & _ & Hdrawn & ->).
  destruct (add_data_labels_fields _ _ _ Hdrawn) as (Hkd & Hpd & _).
  destruct (add_data_labels_texts _ _ _ Hdrawn) as (labels & Htexts & Hpts & _).
  exists groupby_input, g. simpl. rewrite Hkd. simpl.
  repeat split; try done.
  rewrite Htexts, Hpd. simpl. by rewrite <- Hpts, length_map.
Qed.

Lemma saved_chart_decorations_witness :
  exists fig,
    files (_process_single_file Ex.disk Ex.financials_csv Ex.income_by_year __init__).2
      !! ["data"; "test_financials_Year_bar.png"] = Some fig /\
    kind fig = "bar" /\
    title fig = "test_financials grouped by Year" /\
    length (texts fig) = length (points fig).
Proof.
  destruct (files (_process_single_file Ex.disk Ex.financials_csv Ex.income_by_year
                     __init__).2 !! ["data"; "test_financials_Year_bar.png"])
    as [fig|] eqn:Hfig; [|vm_compute in Hfig; discriminate Hfig].
  exists fig. split; [reflexivity|].
  destruct (saved_chart_decorations Ex.disk Ex.financials_csv Ex.income_by_year
              __init__ _ fig Hfig) as [Hold|Hnew];
    [vm_compute in Hold; discriminate Hold|].
  destruct Hnew as (groupby_input & g & _ & _ & _ & _ & _ & _ & _ & _ & _ & Hlen).
  vm_compute in Hfig. injection Hfig as <-.
  split; [reflexivity|]. split; [reflexivity | exact Hlen].
Defined.

(** ** Source paths and artifact paths *)







(** ** Descriptors and group columns, end to end *)

(** X17: a descriptor that yields no file.  Without a usable [directory]
    (absent or empty) the descriptor is skipped with a warning.  With a
    pattern whose matches are all directories, or that matches nothing,
    the only trace is the line that counts the matches (directories
    included); in both cases the call returns and nothing is read. *)
Theorem descriptor_without_files (E : Env) (config : Config) (s : State) :
  (match KEY_DIRECTORY config with
   | Some search_pattern => truthy search_pattern = false
   | None => True
   end ->
   _process_config_entry E config s
   = (Ok tt, log_append s [(WARNING, Config_entry_missing_directory)])) /\
  (forall search_pattern,
     KEY_DIRECTORY config = Some search_pattern ->
     truthy search_pattern = true ->
     (forall file_path, file_path ∈ glob_glob E search_pattern ->
        is_dir E file_path = true) ->
     _process_config_entry E config s
     = (Ok tt,
        log_append s
          [(INFO, Found_files (length (glob_glob E search_pattern)) search_pattern)])).
Proof.
  split.
  - unfold _process_config_entry.
    destruct (KEY_DIRECTORY config) as [search_pattern|]; [|done].
    by intros ->.
  - intros search_pattern Hdir Htruthy Hdirs.
    unfold _process_config_entry. rewrite Hdir, Htruthy. simpl.
    unfold bind at 1, logger at 1.
    generalize (log_append s
      [(INFO, Found_files (length (glob_glob E search_pattern)) search_pattern)]).
    induction (glob_glob E search_pattern) as [|file_path files IH]; intros s'; [done|].
    rewrite for_each_cons. unfold file_loop_body at 1.
    rewrite (Hdirs file_path) by by left. simpl.
    apply IH. intros f Hf. apply Hdirs. by right.
Qed.

Lemma descriptor_without_files_witness :
  _process_config_entry Ex.disk
    {| KEY_DIRECTORY := Some "archive/*.csv"; KEY_COLUMNS := Some (Single "Amount");
       KEY_GROUPBY := Some (Single "Year"); KEY_CHART_TYPE := Some "bar";
       KEY_CHART_LABEL := None |} __init__
  = (Ok tt, log_append __init__ [(INFO, Found_files 0 "archive/*.csv")]).
Proof.
  apply (proj2 (descriptor_without_files Ex.disk
                  {| KEY_DIRECTORY := Some "archive/*.csv";
                     KEY_COLUMNS := Some (Single "Amount");
                     KEY_GROUPBY := Some (Single "Year"); KEY_CHART_TYPE := Some "bar";
                     KEY_CHART_LABEL := None |} __init__) "archive/*.csv");
    [reflexivity | reflexivity |].
  simpl. intros file_path Hin. by apply elem_of_nil in Hin.
Defined.

Lemma stateless_keeps_files {A} (m : M A) (s : State) (path : Path) :
  stateless m -> is_Some (files s !! path) -> is_Some (files (m s).2 !! path).
Proof.
  intros (r & written & Hrun) [fig Hfig]. destruct (Hrun s) as (_ & -> & _).
  destruct (written !! path) as [fig'|] eqn:Hw.
  - exists fig'. by apply lookup_union_Some_l.
  - exists fig. by rewrite lookup_union_r.
Qed.

(** * Sums, in the range where machine addition is exact *)

Lemma units_no_inf (k : nat) (x : num) (u : Z) : units k x = Some u -> no_inf x = true.
Proof. by destruct x. Qed.

Lemma exactly_summable_no_inf (l : list num) :
  exactly_summable l -> Forall (fun x => no_inf x = true) l.
Proof.
  intros (k & us & _ & Hus & _). apply mapM_Some_1 in Hus.
  induction Hus as [|x u l us Hx _ IH]; constructor; [by eapply units_no_inf | done].
Qed.



(** ** The cells of a row *)




(** ** What [exactly_summable] gives *)

(** A cell counted as [u] units of [2^-k] is the number [u / 2^k]. *)
Lemma units_value (k : nat) (x : num) (u : Z) :
  units k x = Some u ->
  (value x * inject_Z (2 ^ Z.of_nat k) == inject_Z u)%Q.
Proof.
  destruct x as [[n d]| | |]; simpl; try done.
  - destruct (Z.eqb_spec ((n * 2 ^ Z.of_nat k) mod Z.pos d) 0) as [Hmod|]; [|done].
    intros [= <-]. unfold Qeq; simpl.
    rewrite Pos.mul_1_r.
    pose proof (Z_div_exact_full_2 (n * 2 ^ Z.of_nat k) (Z.pos d)) as Hdiv.
    lia.
  - intros [= <-]. unfold Qeq; simpl. lia.
Qed.

(** The cells of an [exactly_summable] list add up to a whole number of
    units that is smaller than [2^53], and so does every part of the list:
    whatever the order in which the cells are added, no partial sum needs
    more than the 53 bits of a float64 mantissa (or the 63 of an int64). *)
Lemma units_sum (k : nat) (l : list num) (us : list Z) :
  mapM (units k) l = Some us ->
  (Qsum (map value l) * inject_Z (2 ^ Z.of_nat k) == inject_Z (fold_right Z.add 0%Z us))%Q /\
  (Z.abs (fold_right Z.add 0%Z us) <= fold_right Z.add 0%Z (map Z.abs us))%Z.
Proof.
  intros Hus%mapM_Some_1.
  induction Hus as [|x u l us Hx _ [IHsum IHabs]]; simpl.
  - split; [unfold Qeq; simpl; lia | lia].
  - apply units_value in Hx. split; [|lia].
    rewrite inject_Z_plus, <- Hx, <- IHsum. unfold Qsum; simpl. ring.
Qed.

Lemma units_part (k : nat) (l l' : list num) (us : list Z) :
  l' ⊆+ l ->
  mapM (units k) l = Some us ->
  exists us',
    mapM (units k) l' = Some us' /\
    (fold_right Z.add 0 (map Z.abs us') <= fold_right Z.add 0 (map Z.abs us))%Z.
Proof.
  intros Hpart. revert us.
  induction Hpart as [|x l1 l2 _ IH|x y l1|x l1 l2 _ IH|l1 l2 l3 _ IH1 _ IH2];
    intros us Hus.
  - exists []. split; [done|]. clear Hus. simpl.
    induction us as [|u us IHus]; simpl; lia.
  - apply mapM_Some_1 in Hus. inversion Hus as [|? u ? us' Hx Hus']; subst.
    apply mapM_Some_2 in Hus'.
    destruct (IH us' Hus') as (us1 & Hus1 & Hb1).
    exists (u :: us1). split.
    + apply mapM_Some_2. constructor; [done | by apply mapM_Some_1].
    + simpl. lia.
  - apply mapM_Some_1 in Hus. inversion Hus as [|? u ? us' Hx Hus']; subst.
    inversion Hus' as [|? v ? us'' Hy Hus'']; subst.
    exists (v :: u :: us''). split.
    + apply mapM_Some_2. by repeat constructor.
    + simpl. lia.
  - apply mapM_Some_1 in Hus. inversion Hus as [|? u ? us' Hx Hus']; subst.
    apply mapM_Some_2 in Hus'.
    destruct (IH us' Hus') as (us1 & Hus1 & Hb1).
    exists us1. split; [done|]. simpl. lia.
  - destruct (IH2 us Hus) as (us2 & Hus2 & Hb2).
    destruct (IH1 us2 Hus2) as (us1 & Hus1 & Hb1).
    exists us1. split; [done | lia].
Qed.

Lemma exactly_summable_part (l l' : list num) :
  l' ⊆+ l -> exactly_summable l -> exactly_summable l'.
Proof.
  intros Hpart (k & us & Hk & Hus & Hbound).
  destruct (units_part k l l' us Hpart Hus) as (us' & Hus' & Hle).
  exists k, us'. split; [done|]. split; [done | lia].
Qed.

(** Every part of an [exactly_summable] list adds up to a binary fraction
    [u / 2^k] with [|u| < 2^53] and [k <= 1000]: a number that int64 (for
    whole cells) and float64 hold exactly. *)
Lemma exactly_summable_partial_sums (l l' : list num) :
  exactly_summable l ->
  l' ⊆+ l ->
  exists (k : nat) (u : Z),
    (k <= 1000)%nat /\
    (Qsum (map value l') * inject_Z (2 ^ Z.of_nat k) == inject_Z u)%Q /\
    (Z.abs u < 2 ^ 53)%Z.
Proof.
  intros Hl Hpart.
  destruct (exactly_summable_part l l' Hpart Hl) as (k & us & Hk & Hus & Hbound).
  destruct (units_sum k l' us Hus) as [Hsum Habs].
  exists k, (fold_right Z.add 0%Z us). split; [done|]. split; [done | lia].
Qed.

(** ** C3: the synthetic column of a sequence of names *)




(** ** C2: the grouped sums *)





(** ** C1: which errors stay within a group column *)

(** A bar or line render call on a series with a sum that is no finite
    number raises in the data-label loop, with the figure still open. *)
Lemma generate_chart_not_finite (E : Env) (df : DataFrame)
    (x_col y_col chart_type : string) (output_dir : Path)
    (base_filename y_label : string) (xs ys : list num) (s : State) :
  getitem df x_col = Some xs ->
  getitem df y_col = Some ys ->
  supported chart_type = true ->
  ~ Forall (fun pt : num * num => is_fin pt.2 = true) (combine xs ys) ->
  exists e,
    (e = OverflowError \/ e = ValueError "cannot convert float NaN to integer") /\
    _generate_chart E df x_col y_col chart_type output_dir base_filename y_label s
    = (Raise e, with_open_figures s (S (open_figures s))).
Proof.
  intros Hx Hy Hk Hnot.
  rewrite (generate_chart_supported _ _ _ _ _ _ _ _ xs ys) by done.
  pose proof (add_data_labels_ok_iff (ax_draw chart_type blank xs ys y_label)
                (combine xs ys)) as Hiff.
  destruct (add_data_labels _ _) as [drawn|e] eqn:Hdrawn.
  - exfalso. apply Hnot, Hiff. by eexists.
  - exists e. split; [by eapply add_data_labels_exceptions | done].
Qed.

(** One round of the group loop. *)
Lemma handle_groupby_cons (E : Env) (file_path : Path) (df : DataFrame)
    (group_col : string) (after : list string) (chart_type y_label : string)
    (s : State) :
  handle_groupby E file_path df (Multiple (group_col :: after)) chart_type y_label s
  = match handle_groupby E file_path df (Single group_col) chart_type y_label s with
    | (Ok _, s') =>
        handle_groupby E file_path df (Multiple after) chart_type y_label s'
    | (Raise e, s') => (Raise e, s')
    end.
Proof.
  unfold handle_groupby. simpl as_list. rewrite !for_each_cons.
  match goal with
  | |- context [match ?body s with _ => _ end] => by destruct (body s) as [[[]|e] s']
  end.
Qed.

(** C1, amended.  The loop over the group columns of a file has no
    handler of its own.
    - Whatever exception leaves the aggregation or the render call of one
      group column ends the loop: the group columns after it are neither
      aggregated nor rendered.
    - It leaves [_process_single_file] and is caught in the loop over the
      files, which logs it and goes on with the files after it.
    - Such an exception there is: a bar or line render call on a series
      with an infinite or NaN sum raises [OverflowError] or [ValueError]
      in the data-label loop, which no handler encloses.
    - A failed save, in contrast, is caught inside the render call of its
      group column: it is logged there and the loop goes on with the next
      group column. *)
Theorem group_error_isolation (E : Env) (file_path : Path) (config : Config) :
  (forall df before group_col after chart_type y_label s s1 s2 e,
     handle_groupby E file_path df (Multiple before) chart_type y_label s = (Ok tt, s1) ->
     handle_groupby E file_path df (Single group_col) chart_type y_label s1
     = (Raise e, s2) ->
     handle_groupby E file_path df (Multiple (before ++ group_col :: after))
       chart_type y_label s
     = (Raise e, s2)) /\
  (forall df target_cols groupby_input chart_type df' y_label s s1 s2 e rest,
     is_dir E file_path = false ->
     read_csv E file_path = Ok df ->
     KEY_COLUMNS config = Some target_cols ->
     KEY_GROUPBY config = Some groupby_input ->
     KEY_CHART_TYPE config = Some chart_type ->
     truthy_names target_cols && truthy_names groupby_input && truthy chart_type = true ->
     handle_columns (name file_path) config target_cols df
       (log_append s [(INFO, Processing (name file_path))])
     = (Ok (df', Some y_label), s1) ->
     handle_groupby E file_path df' groupby_input chart_type y_label s1 = (Raise e, s2) ->
     _process_single_file E file_path config s = (Raise e, s2) /\
     for_each (file_path :: rest) (file_loop_body E config) s
     = for_each rest (file_loop_body E config)
         (log_append s2 [(ERROR, Failed_to_process file_path e)])) /\
  (forall df before group_col after chart_type y_label grouped_df xs ys s s1,
     handle_groupby E file_path df (Multiple before) chart_type y_label s = (Ok tt, s1) ->
     has_column group_col df = true ->
     groupby_sum df group_col plot_col_name = Ok grouped_df ->
     getitem grouped_df group_col = Some xs ->
     getitem grouped_df plot_col_name = Some ys ->
     supported chart_type = true ->
     ~ Forall (fun pt : num * num => is_fin pt.2 = true) (combine xs ys) ->
     exists e,
       (e = OverflowError \/ e = ValueError "cannot convert float NaN to integer") /\
       handle_groupby E file_path df (Multiple (before ++ group_col :: after))
         chart_type y_label s
       = (Raise e, with_open_figures s1 (S (open_figures s1)))) /\
  (forall df group_col after chart_type y_label grouped_df xs ys drawn e s,
     has_column group_col df = true ->
     groupby_sum df group_col plot_col_name = Ok grouped_df ->
     getitem grouped_df group_col = Some xs ->
     getitem grouped_df plot_col_name = Some ys ->
     supported chart_type = true ->
     add_data_labels (ax_draw chart_type blank xs ys y_label) (combine xs ys)
     = Ok drawn ->
     savefig_error E
       (truediv (parent file_path)
          (stem file_path ++ "_" ++ group_col ++ "_" ++ chart_type ++ ".png"))
     = Some e ->
     handle_groupby E file_path df (Multiple (group_col :: after)) chart_type y_label s
     = handle_groupby E file_path df (Multiple after) chart_type y_label
         (log_append s
            [(ERROR,
              Failed_to_save_chart
                (truediv (parent file_path)
                   (stem file_path ++ "_" ++ group_col ++ "_" ++ chart_type ++ ".png"))
                e)])).
Proof.
  assert (forall df before group_col after chart_type y_label s s1 s2 e,
     handle_groupby E file_path df (Multiple before) chart_type y_label s = (Ok tt, s1) ->
     handle_groupby E file_path df (Single group_col) chart_type y_label s1
     = (Raise e, s2) ->
     handle_groupby E file_path df (Multiple (before ++ group_col :: after))
       chart_type y_label s
     = (Raise e, s2)) as Hloop.
  { intros df before g after chart_type y_label s s1 s2 e Hbefore Hg.
    unfold handle_groupby in *. simpl as_list in *.
    eapply for_each_raise; [exact Hbefore|].
    by apply for_each_singleton_raise in Hg. }
  assert (forall df g chart_type y_label s,
     has_column g df = true ->
     handle_groupby E file_path df (Single g) chart_type y_label s
     = match groupby_sum df g plot_col_name with
       | Ok grouped_df =>
           match _generate_chart E grouped_df g plot_col_name chart_type
                   (parent file_path) (stem file_path) y_label s with
           | (Ok _, s') => (Ok tt, s')
           | (Raise e, s') => (Raise e, s')
           end
       | Raise e => (Raise e, s)
       end) as Hone.
  { intros df g chart_type y_label s Hg.
    unfold handle_groupby. simpl as_list. rewrite for_each_cons, Hg. simpl.
    unfold bind, lift.
    destruct (groupby_sum df g plot_col_name) as [grouped_df|e]; [|done].
    by destruct (_generate_chart _ _ _ _ _ _ _ _ _) as [[[]|e] s']. }
  split; [exact Hloop|]. split; [|split].
  - intros df target_cols groupby_input chart_type df' y_label s s1 s2 e rest
      Hdir Hread Hcols Hgroup Hkind Htruthy Hprep Hraise.
    apply andb_true_iff in Htruthy as [[Ht Hg]%andb_true_iff Hk].
    assert (_process_single_file E file_path config s = (Raise e, s2)) as Hfile.
    { by rewrite (process_single_file_complete _ _ _ _ _ _ _ _ Hread Hcols Hgroup Hkind),
        Hprep. }
    split; [exact Hfile|].
    rewrite for_each_cons. unfold file_loop_body at 1. rewrite Hdir.
    unfold try_except. by rewrite Hfile.
  - intros df before g after chart_type y_label grouped_df xs ys s s1
      Hbefore Hpresent Hsum Hx Hy Hk Hnot.
    destruct (generate_chart_not_finite E grouped_df g plot_col_name chart_type
                (parent file_path) (stem file_path) y_label xs ys s1 Hx Hy Hk Hnot)
      as (e & He & Hrender).
    exists e. split; [exact He|].
    apply (Hloop _ _ _ _ _ _ _ s1); [exact Hbefore|].
    by rewrite Hone, Hsum, Hrender.
  - intros df g after chart_type y_label grouped_df xs ys drawn e s
      Hpresent Hsum Hx Hy Hk Hdrawn Hsave.
    rewrite handle_groupby_cons, Hone, Hsum by done.
    rewrite (generate_chart_supported _ _ _ _ _ _ _ _ xs ys) by done.
    by rewrite Hdrawn, Hsave.
Qed.

Lemma group_error_isolation_witness :
  for_each [Ex.ledger_csv; Ex.clean_csv]
    (file_loop_body Ex.ledgers (Ex.by_year_and_month ["Year"; "Month"])) __init__
  = for_each [Ex.clean_csv]
      (file_loop_body Ex.ledgers (Ex.by_year_and_month ["Year"; "Month"]))
      (log_append
         (with_open_figures (log_append __init__ [(INFO, Processing "ledger.csv")]) 1)
         [(ERROR, Failed_to_process Ex.ledger_csv OverflowError)]) /\
  handle_groupby Ex.read_only Ex.clean_csv (setitem Ex.clean plot_col_name [Fin 75])
    (Multiple ["Year"; "Month"]) "line" "Amount" __init__
  = handle_groupby Ex.read_only Ex.clean_csv (setitem Ex.clean plot_col_name [Fin 75])
      (Multiple ["Month"]) "line" "Amount"
      (log_append __init__
         [(ERROR, Failed_to_save_chart ["data"; "clean_Year_line.png"] OSError)]).
Proof.
  split.
  - destruct (group_error_isolation Ex.ledgers Ex.ledger_csv
                (Ex.by_year_and_month ["Year"; "Month"])) as (_ & Hfile & Hplot & _).
    destruct (Hplot (setitem Ex.ledger plot_col_name [Fin 100; PInf]) [] "Year" ["Month"]
                "line" "Amount"
                [("Year", [Fin 2023]); (plot_col_name, [PInf])] [Fin 2023] [PInf]
                (log_append __init__ [(INFO, Processing "ledger.csv")])
                (log_append __init__ [(INFO, Processing "ledger.csv")]))
      as (e & _ & Hraise);
      [reflexivity | reflexivity | reflexivity | reflexivity | reflexivity | reflexivity
       | intros Hfin; inversion Hfin; discriminate |].
    assert (e = OverflowError) as ->.
    { vm_compute in Hraise. by injection Hraise as <-. }
    apply (Hfile Ex.ledger (Single "Amount") (Multiple ["Year"; "Month"]) "line"
             (setitem Ex.ledger plot_col_name [Fin 100; PInf]) "Amount" __init__
             (log_append __init__ [(INFO, Processing "ledger.csv")]));
      [reflexivity | reflexivity | reflexivity | reflexivity | reflexivity | reflexivity
       | reflexivity | exact Hraise].
  - destruct (group_error_isolation Ex.read_only Ex.clean_csv
                (Ex.by_year_and_month ["Year"; "Month"])) as (_ & _ & _ & Hsave).
    apply (Hsave (setitem Ex.clean plot_col_name [Fin 75]) "Year" ["Month"] "line" "Amount"
             [("Year", [Fin 2024]); (plot_col_name, [Fin 75])] [Fin 2024] [Fin 75]
             (ax_text (ax_draw "line" blank [Fin 2024] [Fin 75] "Amount")
                (Fin 2024) (Fin 75) "75")
             OSError __init__); reflexivity.
Defined.

(** ** C7: the artifact path *)



(** * Configuration sources, exit status and exact tables *)

(** ** The exceptions of [load_config], source by source *)

(** X2: what [load_config] raises on the configuration sources it
    rejects.  A missing file raises [FileNotFoundError]; a path that
    exists but cannot be opened or read raises what [path.open] or the
    reading raised (an [OSError], say), which [except JSONDecodeError] does
    not catch; a file whose text is not JSON raises [ValueError] with the
    "Failed to decode" message in place of the decoder's
    [JSONDecodeError]; a root that is neither a list nor an object, and an
    empty list, raise [ValueError] with their own messages.  In each case
    the state is as before the call. *)
Theorem load_config_exception_kinds (E : Env) (config_path : string) (s : State) :
  (config_file E config_path = NoFile ->
   load_config E config_path s = (Raise FileNotFoundError, s)) /\
  (forall e,
     config_file E config_path = Unreadable e ->
     is_JSONDecodeError e = false ->
     load_config E config_path s = (Raise e, s)) /\
  (config_file E config_path = NotJson ->
   load_config E config_path s
   = (Raise (ValueError ("Error: Failed to decode JSON from " ++ config_path ++ ".")), s)) /\
  (config_file E config_path = Json JScalar ->
   load_config E config_path s
   = (Raise (ValueError "Config file must contain a list of configurations."), s)) /\
  (config_file E config_path = Json (JList []) ->
   load_config E config_path s
   = (Raise (ValueError ("Warning: No config data found in " ++ config_path ++ ".")), s)).
Proof.
  rewrite load_config_cases.
  split; [by intros ->|]. split; [by intros e -> ->|].
  repeat split; by intros ->.
Qed.

Lemma load_config_exception_kinds_witness :
  load_config Ex.disk "invalid.json" __init__
  = (Raise (ValueError "Error: Failed to decode JSON from invalid.json."), __init__) /\
  load_config Ex.disk "empty.json" __init__
  = (Raise (ValueError "Warning: No config data found in empty.json."), __init__) /\
  load_config Ex.disk "non_existent_file.json" __init__
  = (Raise FileNotFoundError, __init__) /\
  load_config Ex.locked "config.json" __init__ = (Raise OSError, __init__).
Proof.
  destruct (load_config_exception_kinds Ex.disk "invalid.json" __init__)
    as (_ & _ & Hinvalid & _ & _).
  destruct (load_config_exception_kinds Ex.disk "empty.json" __init__)
    as (_ & _ & _ & _ & Hempty).
  destruct (load_config_exception_kinds Ex.disk "non_existent_file.json" __init__)
    as (Hmissing & _).
  destruct (load_config_exception_kinds Ex.locked "config.json" __init__)
    as (_ & Hlocked & _).
  split; [apply Hinvalid; reflexivity|].
  split; [apply Hempty; reflexivity|].
  split; [apply Hmissing; reflexivity|].
  apply Hlocked; reflexivity.
Defined.

(** ** main.py *)

(** X4: the exit status of [main].  Without [--config] the status is 2.
    With it, an exception of [load_config] or of [process_all] is printed
    and the status is 1; when both return, the status is 0.  In
    particular a configuration source that [load_config] rejects gives
    status 1 with the exception of [load_config] printed and nothing
    processed, logged or written. *)
Theorem main_exit_status (E : Env) (config_path : string) (s : State) :
  main E None s = (Ok {| status := 2; printed := None |}, s) /\
  (forall e s',
     (load_config E config_path ;;; process_all E) (with_config_data s []) = (Raise e, s') ->
     main E (Some config_path) s = (Ok {| status := 1; printed := Some e |}, s')) /\
  (forall s',
     (load_config E config_path ;;; process_all E) (with_config_data s []) = (Ok tt, s') ->
     main E (Some config_path) s = (Ok {| status := 0; printed := None |}, s')) /\
  (bad_source (config_file E config_path) = true ->
   exists e,
     load_config E config_path (with_config_data s []) = (Raise e, with_config_data s []) /\
     main E (Some config_path) s
     = (Ok {| status := 1; printed := Some e |}, with_config_data s [])).
Proof.
  assert (forall e s',
     (load_config E config_path ;;; process_all E) (with_config_data s []) = (Raise e, s') ->
     main E (Some config_path) s = (Ok {| status := 1; printed := Some e |}, s')) as Hraise.
  { intros e s'. unfold main, bind, set_config_data, try_except. simpl.
    destruct (load_config E config_path (with_config_data s [])) as [[[]|e0] s0].
    - destruct (process_all E s0) as [[[]|e1] s1]; [done | by intros [= -> ->]].
    - by intros [= -> ->]. }
  split; [done|]. split; [exact Hraise|]. split.
  - intros s'. unfold main, bind, set_config_data, try_except. simpl.
    destruct (load_config E config_path (with_config_data s [])) as [[[]|e0] s0].
    + destruct (process_all E s0) as [[[]|e1] s1]; [by intros [= ->] | done].
    + done.
  - intros Hsrc.
    assert (exists e,
      load_config E config_path (with_config_data s []) = (Raise e, with_config_data s []))
      as [e He].
    { rewrite load_config_cases.
      destruct (config_file E config_path) as [|e| |[[|c l]|d|]]; try done; by eexists. }
    exists e. split; [exact He|].
    apply Hraise. unfold bind. by rewrite He.
Qed.

Lemma main_exit_status_witness :
  main Ex.disk (Some "non_existent_file.json") __init__
  = (Ok {| status := 1; printed := Some FileNotFoundError |}, __init__) /\
  (main Ex.disk (Some "test_config.json") __init__).1
  = Ok {| status := 0; printed := None |}.
Proof.
  destruct (main_exit_status Ex.disk "non_existent_file.json" __init__)
    as (_ & _ & _ & Hbad).
  destruct (main_exit_status Ex.disk "test_config.json" __init__) as (_ & _ & Hgood & _).
  split.
  - destruct (Hbad eq_refl) as (e & He & Hmain).
    vm_compute in He. injection He as <-. exact Hmain.
  - destruct ((load_config Ex.disk "test_config.json" ;;; process_all Ex.disk)
                (with_config_data __init__ [])) as [r s'] eqn:Hrun.
    assert (r = Ok tt) as -> by (by vm_compute in Hrun; injection Hrun as <- _).
    by rewrite (Hgood s' eq_refl).
Defined.

(** ** Tables in the range of exact addition *)

Lemma exact_table_clean (df : DataFrame) : exact_table df -> clean df.
Proof.
  intros Hdf%exactly_summable_no_inf. unfold clean.
  induction df as [|[c col] df IH]; [constructor|].
  simpl in Hdf. apply Forall_app in Hdf as [Hcol Hdf].
  constructor; [exact Hcol | by apply IH].
Qed.

(** X12: numeric tables in the range of exact addition go through
    without an error.  When the cells of every table of the batch are
    missing or whole multiples of one binary unit that add up, in absolute
    value, to less than [2^53] units, every sum is a finite number:
    [_process_single_file] returns normally on every file and descriptor,
    so the per-file error handler is never reached, and no figure stays
    open, neither after a file nor after [process_all]. *)
Theorem exact_tables_leave_no_figure_open (E : Env) :
  (forall file_path df, read_csv E file_path = Ok df -> exact_table df) ->
  (forall file_path config s,
     (_process_single_file E file_path config s).1 = Ok tt /\
     open_figures (_process_single_file E file_path config s).2 = open_figures s) /\
  (forall s, open_figures (process_all E s).2 = open_figures s).
Proof.
  intros Hexact.
  assert (forall file_path config, quiet (_process_single_file E file_path config))
    as Hfile.
  { intros file_path config. apply process_single_file_quiet.
    intros df Hread. eapply exact_table_clean, Hexact, Hread. }
  split; [intros file_path config s; apply Hfile|].
  assert (forall config file_path, quiet (file_loop_body E config file_path)) as Hbody.
  { intros config file_path s. unfold file_loop_body.
    destruct (is_dir E file_path); [done|].
    unfold try_except. destruct (Hfile file_path config s) as [Hok Hfig].
    by destruct (_process_single_file E file_path config s) as [[[]|e] s']. }
  assert (forall config, quiet (_process_config_entry E config)) as Hentry.
  { intros config s. unfold _process_config_entry.
    destruct (KEY_DIRECTORY config) as [search_pattern|]; [|done].
    destruct (negb (truthy search_pattern)); [done|].
    unfold bind, logger.
    match goal with
    | |- (for_each ?l ?b ?st).1 = _ /\ _ => exact (quiet_for_each l b (Hbody config) st)
    end. }
  intros s. rewrite process_all_unfold. case_bool_decide; [done|].
  apply quiet_for_each. intros [i config] s'.
  unfold bind, logger.
  exact (Hentry config (log_append s' [(INFO, Processing_Config_Set (i + 1))])).
Qed.

Lemma exact_tables_leave_no_figure_open_witness :
  (_process_single_file Ex.disk Ex.financials_csv Ex.income_by_year __init__).1 = Ok tt /\
  open_figures (process_all Ex.disk (with_config_data __init__ [Ex.income_by_year])).2
  = 0%nat.
Proof.
  destruct (exact_tables_leave_no_figure_open Ex.disk) as [Hfile Hall].
  - intros file_path df. simpl. case_bool_decide; [|discriminate].
    intros [= <-].
    exists 0%nat, [2023; 2023; 2024; 2024; 100; 200; 150; 250]%Z.
    split; [lia|]. split; reflexivity.
  - split; [apply Hfile | apply Hall].
Defined.

(** X18: one chart per group column.  On a numeric table in the range of
    exact addition that has the synthetic column, with a supported chart
    kind, the group loop returns normally, and for every group column of
    the descriptor that is a column of the table and whose artifact can be
    saved, the artifact [parent/stem_<group column>_<chart kind>.png]
    exists afterwards. *)
Theorem every_group_column_gets_its_chart (E : Env) (file_path : Path) (df : DataFrame)
    (groupby_input : names) (chart_type y_label : string) (group_col : string)
    (s : State) :
  exact_table df ->
  has_column plot_col_name df = true ->
  supported chart_type = true ->
  group_col ∈ as_list groupby_input ->
  has_column group_col df = true ->
  savefig_error E
    (truediv (parent file_path)
       (stem file_path ++ "_" ++ group_col ++ "_" ++ chart_type ++ ".png")) = None ->
  let after := handle_groupby E file_path df groupby_input chart_type y_label s in
  after.1 = Ok tt /\
  is_Some
    (files after.2
       !! truediv (parent file_path)
            (stem file_path ++ "_" ++ group_col ++ "_" ++ chart_type ++ ".png")).
Proof.
  intros Hdf%exact_table_clean Hplot Hk Hin Hg Hsave after. subst after.
  split; [by apply handle_groupby_quiet|].
  unfold handle_groupby. revert s.
  induction (as_list groupby_input) as [|g groups IH]; intros s;
    [by apply elem_of_nil in Hin|].
  rewrite for_each_cons.
  pose proof (handle_groupby_quiet E file_path df (Single g) chart_type y_label
                Hdf Hplot s) as [Hok _].
  unfold handle_groupby in Hok. simpl as_list in Hok. rewrite for_each_cons in Hok.
  match goal with
  | |- context [match ?body s with _ => _ end] => destruct (body s) as [[[]|e] s'] eqn:Hbody
  end; [|done].
  apply elem_of_cons in Hin as [<-|Hin]; [|by apply IH].
  clear IH Hok.
  apply (stateless_keeps_files
           (for_each groups (fun group_col0 =>
              if negb (has_column group_col0 df)
              then logger WARNING (Group_column_not_found group_col0 (name file_path))
              else
                grouped_df <- lift (groupby_sum df group_col0 plot_col_name) ;;
                _generate_chart E grouped_df group_col0 plot_col_name chart_type
                  (parent file_path) (stem file_path) y_label))).
  { exact (stateless_handle_groupby E file_path df (Multiple groups) chart_type y_label). }
  rewrite Hg in Hbody. simpl in Hbody.
  destruct (groupby_sum_clean df group_col Hdf Hg Hplot)
    as (grouped & xs & ys & Hsum & Hx & Hy & Hys).
  unfold bind, lift in Hbody. rewrite Hsum in Hbody.
  rewrite (generate_chart_supported _ _ _ _ _ _ _ _ xs ys) in Hbody by done.
  destruct (add_data_labels _ _) as [drawn|e]; [|done].
  rewrite Hsave in Hbody. injection Hbody as <-. simpl.
  rewrite lookup_insert_eq. by eexists.
Qed.

Lemma every_group_column_gets_its_chart_witness :
  is_Some
    (files
       (handle_groupby Ex.ledgers Ex.clean_csv
          (setitem Ex.clean plot_col_name [Fin 75]) (Multiple ["Year"; "Month"])
          "line" "Amount" __init__).2
       !! ["data"; "clean_Month_line.png"]).
Proof.
  apply (every_group_column_gets_its_chart Ex.ledgers Ex.clean_csv
           (setitem Ex.clean plot_col_name [Fin 75]) (Multiple ["Year"; "Month"])
           "line" "Amount" "Month" __init__).
  - exists 0%nat, [2024; 2; 75; 75]%Z. split; [lia|]. split; reflexivity.
  - reflexivity.
  - reflexivity.
  - simpl. apply elem_of_cons. right. apply elem_of_cons. by left.
  - reflexivity.
  - reflexivity.
Defined.
